(** * Lecture-to-notes generator: the upload, prompt, generation and cleanup workflow

    A shallow embedding of [app.py].  The script is a Streamlit page: it
    configures the generative-model client from a secret, renders a form,
    and, when a recording is present and the trigger is pressed, stages the
    recording in a temporary file, uploads it, asks the model for text and
    renders it.

    Python strings are modelled as [string] (their UTF-8 bytes), the local
    file system and a secrets store as [gmap string string], exceptions
    as a class tag with a description, and the script as a computation in
    a state-and-exception monad over the rendered page, the log of remote
    calls, the file system and the configured credential.

    What the libraries decide is kept outside the script, in an
    environment: whether the secrets store can be read, the names
    [tempfile] draws, whether and where the write of the payload fails,
    and the answers of the remote service.  Streamlit widget calls render
    and return; [os.remove] of an existing file succeeds. *)

From Stdlib Require Import Ascii String List Bool Arith Lia.
From stdpp Require Import gmap strings.

Open Scope string_scope.
Open Scope list_scope.

(** ** Python string operations used by the script *)

Module PyStr.

(** [s.endswith(suffix)]. *)
Fixpoint endswith (s suffix : string) : bool :=
  String.eqb s suffix ||
  match s with
  | EmptyString => false
  | String _ s' => endswith s' suffix
  end.

(** The slice [s[:k]]. *)
Fixpoint take (k : nat) (s : string) : string :=
  match k, s with
  | S k', String c s' => String c (take k' s')
  | _, _ => EmptyString
  end.

(** [sub in s]: some suffix of [s] starts with [sub]. *)
Fixpoint contains (sub s : string) : bool :=
  String.prefix sub s ||
  match s with
  | EmptyString => false
  | String _ s' => contains sub s'
  end.

Definition map_chars (f : ascii -> ascii) : string -> string :=
  fix go (s : string) : string :=
    match s with
    | EmptyString => EmptyString
    | String c s' => String (f c) (go s')
    end.

(** [str.lower] on the ASCII range: [A]..[Z] move to [a]..[z], every other
    byte is kept.  The strings the script lowers are the labels of the
    selection control, which are ASCII. *)
Definition lower_char (c : ascii) : ascii :=
  let n := nat_of_ascii c in
  if Nat.leb 65 n && Nat.leb n 90 then ascii_of_nat (n + 32) else c.

Definition lower : string -> string := map_chars lower_char.

(** [str.replace(old, new)] with an empty [old]: [new] is inserted before
    every character and at the end. *)
Fixpoint interleave (new s : string) : string :=
  match s with
  | EmptyString => new
  | String c s' => new +:+ String c (interleave new s')
  end.

(** [str.replace(old, new)] with a non-empty [old]: a left-to-right scan
    that replaces every non-overlapping occurrence.  [skip] counts the
    characters of the occurrence just replaced that are still to be
    dropped. *)
Fixpoint replace_from (skip : nat) (old new s : string) : string :=
  match s with
  | EmptyString => EmptyString
  | String c s' =>
      match skip with
      | S k => replace_from k old new s'
      | O =>
          if String.prefix old s
          then new +:+ replace_from (String.length old - 1) old new s'
          else String c (replace_from 0 old new s')
      end
  end.

Definition replace (old new s : string) : string :=
  match old with
  | EmptyString => interleave new s
  | _ => replace_from 0 old new s
  end.

End PyStr.

(** ** Output modes and the prompt selector *)

(** The three options of the selection control (line 103). *)
Inductive OutputMode : Type := StudyNotes | Flashcards | Quiz.

Definition mode_label (m : OutputMode) : string :=
  match m with
  | StudyNotes => "Study Notes"
  | Flashcards => "Flashcards"
  | Quiz => "Multiple Choice Quiz"
  end.

Definition output_options : list string :=
  ["Study Notes"; "Flashcards"; "Multiple Choice Quiz"].

(** The three f-strings of lines 138, 140 and 142. *)
Definition study_notes_prompt (lecture_topic : string) : string :=
  "Summarize this lecture on " +:+ lecture_topic +:+
  " into structured study notes with headings and bold key terms.".

Definition flashcards_prompt (lecture_topic : string) : string :=
  "Identify key terms from this lecture on " +:+ lecture_topic +:+
  " and create Q&A flashcards. Format: **Front:** [Question] **Back:** [Answer].".

Definition quiz_prompt (lecture_topic : string) : string :=
  "Create a 5-question multiple choice quiz with correct answers and explanations based on this "
  +:+ lecture_topic +:+ " lecture.".

(** Lines 137-142.  The script compares the selected label, a string, and
    the last branch is an [else]. *)
Definition select_prompt (output_type lecture_topic : string) : string :=
  if String.eqb output_type "Study Notes" then study_notes_prompt lecture_topic
  else if String.eqb output_type "Flashcards" then flashcards_prompt lecture_topic
  else quiz_prompt lecture_topic.

(** Line 155: the suggested file name of the download. *)
Definition file_name (lecture_topic output_type : string) : string :=
  PyStr.replace " " "_" lecture_topic +:+ "_" +:+ PyStr.lower output_type +:+ ".md".

(** The file name as the specification words it: the topic with every
    space turned into an underscore, an underscore, the mode in lower
    case, and the extension. *)
Definition underscore_spaces : string -> string :=
  PyStr.map_chars (fun c => if Ascii.eqb c " "%char then "_"%char else c).

Definition lowercased_label (m : OutputMode) : string :=
  match m with
  | StudyNotes => "study notes"
  | Flashcards => "flashcards"
  | Quiz => "multiple choice quiz"
  end.

Definition spec_file_name (t : string) (m : OutputMode) : string :=
  underscore_spaces t +:+ "_" +:+ lowercased_label m +:+ ".md".

(** ** Exceptions *)

(** The exception classes that matter to the two handlers of the script:
    [except KeyError] (line 12) and [except Exception] (line 159).
    [KeyboardInterrupt] and [SystemExit] derive from [BaseException] only;
    [RemoteError] stands for any other subclass of [Exception] raised by
    the client library (network, quota, credential, ...). *)
Inductive ExcClass : Type :=
  | KeyboardInterrupt
  | SystemExit
  | KeyError
  | OSError
  | FileExistsError
  | FileNotFoundError
  | ValueError
  | RemoteError.

Definition is_Exception (c : ExcClass) : bool :=
  match c with
  | KeyboardInterrupt | SystemExit => false
  | _ => true
  end.

Definition is_KeyError (c : ExcClass) : bool :=
  match c with
  | KeyError => true
  | _ => false
  end.

(** An exception object: its class and [str(e)]. *)
Record Exc : Type := mkExc { exc_class : ExcClass; exc_str : string }.

Inductive Result (A : Type) : Type :=
  | Returned (a : A)
  | Raised (e : Exc).
Arguments Returned {A} a.
Arguments Raised {A} e.

(** ** The page, the remote service and the world *)

(** The containers widgets are placed in: the page body, the sidebar
    (line 96) and the two columns (line 109). *)
Inductive Place : Type := Main | Sidebar | Col1 | Col2.

(** The two blocks of raw markup (lines 23-84 and 87-92); their text is
    cosmetic and is not reproduced. *)
Inductive StyleBlock : Type := ThemeCss | PageHeader.

Record Download : Type := mkDownload {
  dl_label : string;
  dl_data : string;
  dl_file_name : string;
  dl_mime : string
}.

(** One constructor per Streamlit call of the script. *)
Inductive Widget : Type :=
  | ErrorBox (msg : string)
  | PageConfig (page_title page_icon layout : string)
  | Html (block : StyleBlock)
  | Divider
  | Header (body : string)
  | TextInput (label default : string)
  | Selectbox (label : string) (options : list string)
  | Markdown (body : string)
  | Info (body : string)
  | Subheader (body : string)
  | FileUploader (label : string) (types : list string)
  | Audio (data format : string)
  | Write (body : string)
  | Button (label : string)
  | Spinner (text : string)
  | SuccessBox (body : string)
  | DownloadButton (d : Download).

(** What the file-upload control returns: the payload and the name and
    type the browser declared for it. *)
Record UploadedFile : Type := mkUploadedFile {
  uf_name : string;
  uf_type : string;
  uf_data : string
}.

(** The values the user holds in the four controls during one run. *)
Record Inputs : Type := mkInputs {
  lecture_topic : string;
  output_type : string;
  uploaded_file : option UploadedFile;
  generate_button : bool
}.

(** The result of [generate_content]: its [text] property returns the
    generated text, or raises when the response carries none. *)
Record Response : Type := mkResponse { text : Result string }.

Inductive RemoteCall : Type :=
  | UploadCall (path : string)
  | GenerateCall (model prompt audio_file : string).

(** Everything the script does not decide: what reading [st.secrets]
    gives (the parsed store, or the exception Streamlit raises when no
    secrets file can be read), the names [tempfile] draws, whether the
    write of the payload fails and how many of its bytes reached the file
    before it did, and how the remote service answers (given the
    credential the client holds). *)
Record Env : Type := mkEnv {
  secrets : Result (gmap string string);
  tmp_dir : string;
  tmp_names : list string;
  write_fault : option Exc;
  written_before_fault : nat;
  remote_upload : option string -> string -> string -> Result string;
  remote_generate : option string -> string -> string -> string -> Result Response
}.

Record World : Type := mkWorld {
  fs : gmap string string;
  page : list (Place * Widget);
  remote_log : list RemoteCall;
  api_key : option string
}.

Definition set_fs (w : World) (m : gmap string string) : World :=
  mkWorld m (page w) (remote_log w) (api_key w).

(** ** The script monad: state passing with exceptions *)

Definition M (A : Type) : Type := World -> Result A * World.

Definition ret {A} (a : A) : M A := fun w => (Returned a, w).

Definition raise {A} (e : Exc) : M A := fun w => (Raised e, w).

Definition bind {A B} (c : M A) (k : A -> M B) : M B :=
  fun w =>
    match c w with
    | (Returned a, w') => k a w'
    | (Raised e, w') => (Raised e, w')
    end.

Declare Scope script_scope.
Delimit Scope script_scope with script.
Notation "x <- c ;; k" := (bind c (fun x => k))
  (at level 100, c at next level, right associativity) : script_scope.
Notation "c ;; k" := (bind c (fun _ => k))
  (at level 100, right associativity) : script_scope.

(** [try: body  except C as e: handler e], where [catches] decides
    [isinstance(e, C)]. *)
Definition try_except {A} (body : M A) (catches : ExcClass -> bool)
    (handler : Exc -> M A) : M A :=
  fun w =>
    match body w with
    | (Raised e, w') =>
        if catches (exc_class e) then handler e w' else (Raised e, w')
    | r => r
    end.

(** [try: body  finally: final].  The final block always runs; what it
    raises replaces the outcome of the body. *)
Definition try_finally {A} (body : M A) (final : M unit) : M A :=
  fun w =>
    match body w with
    | (r, w') =>
        match final w' with
        | (Returned _, w'') => (r, w'')
        | (Raised e, w'') => (Raised e, w'')
        end
    end.

(** A Streamlit call placed in container [p]. *)
Definition st (p : Place) (x : Widget) : M unit :=
  fun w => (Returned tt,
            mkWorld (fs w) (page w ++ [(p, x)]) (remote_log w) (api_key w)).

Definition log_remote (c : RemoteCall) : M unit :=
  fun w => (Returned tt,
            mkWorld (fs w) (page w) (remote_log w ++ [c]) (api_key w)).

Definition lift_result {A} (r : Result A) : M A := fun w => (r, w).

(** ** The script *)

Definition model : string := "gemini-3-flash-preview".

Definition config_banner : string :=
  "API Key not found. Please set GEMINI_API_KEY in Streamlit Secrets.".

Section Script.

Variable env : Env.

(** [st.secrets[key]]: the store is read first, which raises when there
    is no secrets file; in a store that was read, a missing key raises
    [KeyError].  The script never reads the text of either exception. *)
Definition secrets_getitem (key : string) : M string :=
  match secrets env with
  | Raised e => raise e
  | Returned store =>
      match store !! key with
      | Some v => ret v
      | None => raise (mkExc KeyError key)
      end
  end.

Definition genai_configure (key : string) : M unit :=
  fun w => (Returned tt,
            mkWorld (fs w) (page w) (remote_log w) (Some key)).

(** Lines 9-13. *)
Definition configure : M unit :=
  (try_except
     (k <- secrets_getitem "GEMINI_API_KEY" ;; genai_configure k)
     is_KeyError
     (fun _ => st Main (ErrorBox config_banner)))%script.

(** [tempfile.NamedTemporaryFile(delete=False, suffix=...)]: the first
    drawn name whose path is not in use is created empty; when every
    candidate exists the call raises [FileExistsError]. *)
Definition temp_path (name suffix : string) : string :=
  tmp_dir env +:+ "/tmp" +:+ name +:+ suffix.

Definition fresh_name (files : gmap string string) (suffix : string)
    : option string :=
  find (fun n => bool_decide (files !! temp_path n suffix = None))
       (tmp_names env).

Definition NamedTemporaryFile (suffix : string) : M string :=
  fun w =>
    match fresh_name (fs w) suffix with
    | Some n =>
        let p := temp_path n suffix in
        (Returned p, set_fs w (<[p := ""]> (fs w)))
    | None =>
        (Raised (mkExc FileExistsError
                   "[Errno 17] No usable temporary file name found"), w)
    end.

(** [temp_audio.write(data)]; a failed write leaves the file in place,
    holding the bytes that were written before the failure. *)
Definition file_write (p data : string) : M unit :=
  fun w =>
    match write_fault env with
    | Some e =>
        (Raised e,
         set_fs w (<[p := PyStr.take (written_before_fault env) data]> (fs w)))
    | None => (Returned tt, set_fs w (<[p := data]> (fs w)))
    end.

Definition os_path_exists (p : string) : M bool :=
  fun w => (Returned (bool_decide (is_Some (fs w !! p))), w).

Definition os_remove (p : string) : M unit :=
  fun w =>
    match fs w !! p with
    | Some _ => (Returned tt, set_fs w (delete p (fs w)))
    | None => (Raised (mkExc FileNotFoundError p), w)
    end.

(** [genai.upload_file(path=p)]: reads the local file and registers its
    content with the remote service. *)
Definition genai_upload_file (p : string) : M string :=
  fun w =>
    match fs w !! p with
    | None => (Raised (mkExc FileNotFoundError p), w)
    | Some data =>
        (log_remote (UploadCall p) ;;
         lift_result (remote_upload env (api_key w) p data))%script w
    end.

Definition generate_content (prompt audio_file : string) : M Response :=
  fun w =>
    (log_remote (GenerateCall model prompt audio_file) ;;
     lift_result (remote_generate env (api_key w) model prompt audio_file))%script w.

(** Lines 129-131: the [with] block that stages the payload.  Leaving the
    block closes the file and, with [delete=False], keeps it. *)
Definition stage (f : UploadedFile) : M string :=
  (temp_audio <- NamedTemporaryFile ".mp3" ;;
   file_write temp_audio (uf_data f) ;;
   ret temp_audio)%script.

(** Lines 135-157: the body of the [try]. *)
Definition generate (inp : Inputs) (temp_audio_path : string) : M unit :=
  (audio_file <- genai_upload_file temp_audio_path ;;
   let prompt := select_prompt (output_type inp) (lecture_topic inp) in
   response <- generate_content prompt audio_file ;;
   st Main (SuccessBox "Analysis Complete!") ;;
   st Main (Markdown ("### Results for: " +:+ lecture_topic inp)) ;;
   shown <- lift_result (text response) ;;
   st Main (Markdown shown) ;;
   data <- lift_result (text response) ;;
   st Main (DownloadButton
              (mkDownload "📥 Save Results as Markdown" data
                 (file_name (lecture_topic inp) (output_type inp))
                 "text/markdown")))%script.

(** Lines 159-160. *)
Definition on_error (e : Exc) : M unit :=
  st Main (ErrorBox ("Processing Error: " +:+ exc_str e)).

(** Lines 162-164. *)
Definition cleanup (temp_audio_path : string) : M unit :=
  (present <- os_path_exists temp_audio_path ;;
   if present then os_remove temp_audio_path else ret tt)%script.

(** Lines 133-160: the [try] with its handler. *)
Definition attempt (inp : Inputs) (temp_audio_path : string) : M unit :=
  try_except (generate inp temp_audio_path) is_Exception on_error.

(** Lines 126-164. *)
Definition core_logic (inp : Inputs) : M unit :=
  match uploaded_file inp with
  | Some f =>
      if generate_button inp then
        (st Main (Spinner "Analyzing lecture content...") ;;
         temp_audio_path <- stage f ;;
         try_finally (attempt inp temp_audio_path)
                     (cleanup temp_audio_path))%script
      else ret tt
  | None => ret tt
  end.

(** Lines 21-121: the form.  Each control shows itself and returns the
    value the user holds in it; [st.columns] (line 109) only makes the two
    containers [Col1] and [Col2]. *)
Definition interface (inp : Inputs) : M unit :=
  (st Main (PageConfig "Lecture AI Master" "🎙️" "wide") ;;
   st Main (Html ThemeCss) ;;
   st Main (Html PageHeader) ;;
   st Main Divider ;;
   st Sidebar (Header "📝 Lecture Details") ;;
   st Sidebar (TextInput "Topic Name" "New Lecture") ;;
   st Sidebar (Header "⚙️ Output Settings") ;;
   st Sidebar (Selectbox "Generate Content As:" output_options) ;;
   st Sidebar (Markdown "---") ;;
   st Sidebar (Info "💡 Tip: This system uses a high-speed multimodal model optimized for processing long academic lectures with high accuracy.") ;;
   st Col1 (Subheader "1. Upload Audio") ;;
   st Col1 (FileUploader "Select recording (MP3, WAV, M4A)" ["mp3"; "wav"; "m4a"]) ;;
   match uploaded_file inp with
   | Some f => st Col1 (Audio (uf_data f) "audio/mp3")
   | None => ret tt
   end ;;
   st Col2 (Subheader "2. Process & Results") ;;
   st Col2 (Write "Click below to start the AI transformation.") ;;
   st Col2 (Button ("✨ Generate " +:+ output_type inp)))%script.

(** One run of the whole script. *)
Definition app (inp : Inputs) : M unit :=
  (configure ;; interface inp ;; core_logic inp)%script.

End Script.

(** A fresh process: nothing rendered, no remote call made, no credential
    configured yet. *)
Definition start (files : gmap string string) : World :=
  mkWorld files [] [] None.

(** ** Observations on a run *)

(** What a computation adds to the page and to the log of remote calls. *)
Definition rendered {A} (c : M A) (w : World) : list (Place * Widget) :=
  drop (length (page w)) (page (snd (c w))).

Definition new_calls {A} (c : M A) (w : World) : list RemoteCall :=
  drop (length (remote_log w)) (remote_log (snd (c w))).

Definition prompts_of (calls : list RemoteCall) : list string :=
  flat_map (fun c => match c with
                     | GenerateCall _ prompt _ => [prompt]
                     | UploadCall _ => []
                     end) calls.

Definition is_download (x : Place * Widget) : bool :=
  match snd x with
  | DownloadButton _ => true
  | _ => false
  end.


(** A computation that leaves the file system and the credential alone:
    it may only render and talk to the remote service. *)
Definition same_store (w w' : World) : Prop :=
  fs w' = fs w /\ api_key w' = api_key w.

Definition read_only {A} (c : M A) : Prop :=
  forall w, same_store w (snd (c w)).

(** The widgets of the form, in the order lines 21-121 render them. *)
Definition form (inp : Inputs) : list (Place * Widget) :=
  [(Main, PageConfig "Lecture AI Master" "🎙️" "wide");
   (Main, Html ThemeCss);
   (Main, Html PageHeader);
   (Main, Divider);
   (Sidebar, Header "📝 Lecture Details");
   (Sidebar, TextInput "Topic Name" "New Lecture");
   (Sidebar, Header "⚙️ Output Settings");
   (Sidebar, Selectbox "Generate Content As:" output_options);
   (Sidebar, Markdown "---");
   (Sidebar, Info "💡 Tip: This system uses a high-speed multimodal model optimized for processing long academic lectures with high accuracy.");
   (Col1, Subheader "1. Upload Audio");
   (Col1, FileUploader "Select recording (MP3, WAV, M4A)" ["mp3"; "wav"; "m4a"])]
  ++ match uploaded_file inp with
     | Some f => [(Col1, Audio (uf_data f) "audio/mp3")]
     | None => []
     end
  ++ [(Col2, Subheader "2. Process & Results");
      (Col2, Write "Click below to start the AI transformation.");
      (Col2, Button ("✨ Generate " +:+ output_type inp))].

Definition spinner : Place * Widget :=
  (Main, Spinner "Analyzing lecture content...").

Definition error_box (e : Exc) : Place * Widget :=
  (Main, ErrorBox ("Processing Error: " +:+ exc_str e)).

(** What a successful request renders after the spinner (lines 147-157). *)
Definition results (inp : Inputs) (r : string) : list (Place * Widget) :=
  [(Main, SuccessBox "Analysis Complete!");
   (Main, Markdown ("### Results for: " +:+ lecture_topic inp));
   (Main, Markdown r);
   (Main, DownloadButton
            (mkDownload "📥 Save Results as Markdown" r
               (file_name (lecture_topic inp) (output_type inp))
               "text/markdown"))].

(** A computation that only appends remote calls satisfying [P] to the log. *)
Definition logs_only {A} (P : RemoteCall -> Prop) (c : M A) : Prop :=
  forall w, exists calls,
    remote_log (snd (c w)) = (remote_log w ++ calls)%list /\ Forall P calls.

(** A remote call that, if it is a generation call, carries [prompt]. *)
Definition sends_prompt (prompt : string) (c : RemoteCall) : Prop :=
  match c with
  | GenerateCall _ sent _ => sent = prompt
  | UploadCall _ => True
  end.

(** The world in which the [try] block starts once the spinner is shown
    and the payload of [f] is staged under the drawn name [n]. *)
Definition staged_world (env : Env) (w : World) (n : string) (f : UploadedFile)
    : World :=
  let p := temp_path env n ".mp3" in
  mkWorld (<[p := uf_data f]> (<[p := ""]> (fs w)))
          (page w ++ [spinner])
          (remote_log w) (api_key w).

(** ** Environments and requests used as concrete instances *)

Module Mock.

Definition flashcard_text : string :=
  "**Front:** What is a cell? **Back:** The basic unit of life.".

Definition upload_ok : option string -> string -> string -> Result string :=
  fun _ _ _ => Returned "files/lecture-1".

Definition generate_ok : option string -> string -> string -> string -> Result Response :=
  fun _ _ _ _ => Returned (mkResponse (Returned flashcard_text)).

(** The service refuses a client that holds no credential. *)
Definition upload_checked : option string -> string -> string -> Result string :=
  fun key _ _ =>
    match key with
    | Some _ => Returned "files/lecture-1"
    | None => Raised (mkExc RemoteError "No API_KEY or ADC found.")
    end.

Definition upload_down : option string -> string -> string -> Result string :=
  fun _ _ _ => Raised (mkExc RemoteError "503 Service Unavailable").

Definition generate_quota : option string -> string -> string -> string -> Result Response :=
  fun _ _ _ _ => Raised (mkExc RemoteError "429 Quota exceeded").

Definition with_key : gmap string string := {[ "GEMINI_API_KEY" := "sk-test" ]}.

Definition healthy : Env :=
  mkEnv (Returned with_key) "/tmp" ["k3x9qz1a"] None 0 upload_ok generate_ok.

Definition no_credential : Env :=
  mkEnv (Returned ∅) "/tmp" ["k3x9qz1a"] None 0 upload_checked generate_ok.

Definition upload_fails : Env :=
  mkEnv (Returned with_key) "/tmp" ["k3x9qz1a"] None 0 upload_down generate_ok.

Definition generation_fails : Env :=
  mkEnv (Returned with_key) "/tmp" ["k3x9qz1a"] None 0 upload_ok generate_quota.

Definition disk_full : Env :=
  mkEnv (Returned with_key) "/tmp" ["k3x9qz1a"]
    (Some (mkExc OSError "[Errno 28] No space left on device")) 0
    upload_ok generate_ok.

Definition wav_recording : UploadedFile :=
  mkUploadedFile "lecture.wav" "audio/wav" "RIFF-WAVE-payload".

Definition m4a_recording : UploadedFile :=
  mkUploadedFile "lecture.m4a" "audio/x-m4a" "RIFF-WAVE-payload".

Definition flashcards_request : Inputs :=
  mkInputs "Cell Biology" "Flashcards" (Some wav_recording) true.

Definition no_recording_request : Inputs :=
  mkInputs "Cell Biology" "Flashcards" None true.

Definition staged_path : string := "/tmp/tmpk3x9qz1a.mp3".

(** The upload is interrupted from outside the script. *)
Definition upload_interrupted : option string -> string -> string -> Result string :=
  fun _ _ _ => Raised (mkExc KeyboardInterrupt "").

(** The service answers, but the response carries no text. *)
Definition generate_blocked : option string -> string -> string -> string -> Result Response :=
  fun _ _ _ _ =>
    Returned (mkResponse (Raised (mkExc ValueError "The response has no valid part."))).

Definition interrupted : Env :=
  mkEnv (Returned with_key) "/tmp" ["k3x9qz1a"] None 0 upload_interrupted generate_ok.

Definition blocked : Env :=
  mkEnv (Returned with_key) "/tmp" ["k3x9qz1a"] None 0 upload_ok generate_blocked.

(** The service accepts only a client that holds a credential. *)
Definition keyed : Env :=
  mkEnv (Returned with_key) "/tmp" ["k3x9qz1a"] None 0 upload_checked generate_ok.

(** A file system in which the only name [tempfile] draws is taken. *)
Definition crowded : gmap string string := {[ staged_path := "an older recording" ]}.

Definition notes_on_disk : gmap string string := {[ "/home/user/notes.txt" := "kept" ]}.

Definition preview_request : Inputs :=
  mkInputs "Cell Biology" "Flashcards" (Some wav_recording) false.

(** No secrets file can be read: [st.secrets] raises before any key is
    looked up (Streamlit's error for it derives from [FileNotFoundError]). *)
Definition no_secrets_file : Env :=
  mkEnv (Raised (mkExc FileNotFoundError "No secrets found."))
    "/tmp" ["k3x9qz1a"] None 0 upload_checked generate_ok.

(** The store has no key, yet the service answers the client (which can
    find a credential elsewhere than in the call of line 11). *)
Definition other_credential : Env :=
  mkEnv (Returned ∅) "/tmp" ["k3x9qz1a"] None 0 upload_ok generate_ok.

(** The write is cut off by a file-size limit after four bytes. *)
Definition size_limited : Env :=
  mkEnv (Returned with_key) "/tmp" ["k3x9qz1a"]
    (Some (mkExc OSError "[Errno 27] File too large")) 4
    upload_ok generate_ok.

End Mock.

(** ** The outcomes of a request *)

(** The payload of [f] can be staged under the drawn name [n]. *)
Definition staged (env : Env) (inp : Inputs) (w : World)
    (f : UploadedFile) (n : string) : Prop :=
  uploaded_file inp = Some f /\
  generate_button inp = true /\
  write_fault env = None /\
  fresh_name env (fs w) ".mp3" = Some n.

(** What [except Exception] makes of an exception raised in the [try]:
    an instance of [Exception] is rendered and the request returns; any
    other exception leaves the request. *)
Definition handled (e : Exc) : Result unit :=
  if is_Exception (exc_class e) then Returned tt else Raised e.

Definition shown (e : Exc) : list (Place * Widget) :=
  if is_Exception (exc_class e) then [error_box e] else [].

(** The ways lines 126-164 can end, each with the result and the world it
    ends in. *)
Inductive Outcome (env : Env) (inp : Inputs) (w : World)
    : Result unit -> World -> Prop :=
  | Idle :
      uploaded_file inp = None \/ generate_button inp = false ->
      Outcome env inp w (Returned tt) w
  | NoName (f : UploadedFile) :
      uploaded_file inp = Some f ->
      generate_button inp = true ->
      fresh_name env (fs w) ".mp3" = None ->
      Outcome env inp w
        (Raised (mkExc FileExistsError
                   "[Errno 17] No usable temporary file name found"))
        (mkWorld (fs w) (page w ++ [spinner]) (remote_log w) (api_key w))
  | WriteFailed (f : UploadedFile) (n : string) (e : Exc) :
      uploaded_file inp = Some f ->
      generate_button inp = true ->
      fresh_name env (fs w) ".mp3" = Some n ->
      write_fault env = Some e ->
      Outcome env inp w (Raised e)
        (mkWorld (<[temp_path env n ".mp3" :=
                      PyStr.take (written_before_fault env) (uf_data f)]> (fs w))
           (page w ++ [spinner]) (remote_log w) (api_key w))
  | UploadFailed (f : UploadedFile) (n : string) (e : Exc) :
      staged env inp w f n ->
      remote_upload env (api_key w) (temp_path env n ".mp3") (uf_data f) = Raised e ->
      Outcome env inp w (handled e)
        (mkWorld (fs w) (page w ++ spinner :: shown e)
           (remote_log w ++ [UploadCall (temp_path env n ".mp3")]) (api_key w))
  | GenerationFailed (f : UploadedFile) (n audio : string) (e : Exc) :
      staged env inp w f n ->
      remote_upload env (api_key w) (temp_path env n ".mp3") (uf_data f) =
        Returned audio ->
      remote_generate env (api_key w) model
        (select_prompt (output_type inp) (lecture_topic inp)) audio = Raised e ->
      Outcome env inp w (handled e)
        (mkWorld (fs w) (page w ++ spinner :: shown e)
           (remote_log w ++
              [UploadCall (temp_path env n ".mp3");
               GenerateCall model
                 (select_prompt (output_type inp) (lecture_topic inp)) audio])
           (api_key w))
  | TextMissing (f : UploadedFile) (n audio : string) (e : Exc) :
      staged env inp w f n ->
      remote_upload env (api_key w) (temp_path env n ".mp3") (uf_data f) =
        Returned audio ->
      remote_generate env (api_key w) model
        (select_prompt (output_type inp) (lecture_topic inp)) audio =
        Returned (mkResponse (Raised e)) ->
      Outcome env inp w (handled e)
        (mkWorld (fs w)
           (page w ++ spinner ::
              (Main, SuccessBox "Analysis Complete!") ::
              (Main, Markdown ("### Results for: " +:+ lecture_topic inp)) ::
              shown e)
           (remote_log w ++
              [UploadCall (temp_path env n ".mp3");
               GenerateCall model
                 (select_prompt (output_type inp) (lecture_topic inp)) audio])
           (api_key w))
  | Succeeded (f : UploadedFile) (n audio r : string) :
      staged env inp w f n ->
      remote_upload env (api_key w) (temp_path env n ".mp3") (uf_data f) =
        Returned audio ->
      remote_generate env (api_key w) model
        (select_prompt (output_type inp) (lecture_topic inp)) audio =
        Returned (mkResponse (Returned r)) ->
      Outcome env inp w (Returned tt)
        (mkWorld (fs w) (page w ++ spinner :: results inp r)
           (remote_log w ++
              [UploadCall (temp_path env n ".mp3");
               GenerateCall model
                 (select_prompt (output_type inp) (lecture_topic inp)) audio])
           (api_key w)).

(** What start-up renders: the banner when the store was read and the
    key is missing (or when reading the store itself raised a [KeyError]). *)
Definition banner (env : Env) : list (Place * Widget) :=
  match secrets env with
  | Returned store =>
      match store !! "GEMINI_API_KEY" with
      | Some _ => []
      | None => [(Main, ErrorBox config_banner)]
      end
  | Raised e =>
      if is_KeyError (exc_class e) then [(Main, ErrorBox config_banner)] else []
  end.

(** * Properties *)

(** ** String operations *)

Section StringFacts.

Lemma prefix_refl_app (s rest : string) : String.prefix s (s +:+ rest) = true.
Proof.
  induction s as [|c s IH]; simpl.
  - now destruct rest.
  - destruct (ascii_dec c c) as [_|ne]; [exact IH | now destruct ne].
Qed.

Lemma contains_here (sub rest : string) :
  PyStr.contains sub (sub +:+ rest) = true.
Proof.
  destruct sub as [|c sub]; simpl.
  - now destruct rest.
  - destruct (ascii_dec c c) as [_|ne]; [|now destruct ne].
    now rewrite prefix_refl_app.
Qed.

Lemma prefix_refl (s : string) : String.prefix s s = true.
Proof.
  induction s as [|c s IH]; simpl; [reflexivity|].
  destruct (ascii_dec c c) as [_|ne]; [exact IH | now destruct ne].
Qed.

Lemma contains_self (s : string) : PyStr.contains s s = true.
Proof.
  destruct s as [|c s]; simpl; [reflexivity|].
  destruct (ascii_dec c c) as [_|ne]; [|now destruct ne].
  now rewrite prefix_refl.
Qed.

Lemma contains_later (sub s before : string) :
  PyStr.contains sub s = true -> PyStr.contains sub (before +:+ s) = true.
Proof.
  intros H. induction before as [|c before IH]; simpl; [exact H|].
  rewrite IH. apply orb_true_r.
Qed.

Lemma contains_middle (sub before rest : string) :
  PyStr.contains sub (before +:+ sub +:+ rest) = true.
Proof. apply contains_later, contains_here. Qed.

Lemma endswith_app (stem suffix : string) :
  PyStr.endswith (stem +:+ suffix) suffix = true.
Proof.
  induction stem as [|c stem IH]; simpl.
  - destruct suffix; simpl; [reflexivity|].
    now rewrite Ascii.eqb_refl, String.eqb_refl.
  - rewrite IH. apply orb_true_r.
Qed.

Lemma endswith_later (before s suffix : string) :
  PyStr.endswith s suffix = true ->
  PyStr.endswith (before +:+ s) suffix = true.
Proof.
  intros H. induction before as [|c before IH]; simpl; [exact H|].
  rewrite IH. apply orb_true_r.
Qed.

(** Replacing the one-character string [old] is a character-wise map. *)
Lemma replace_char (old new : ascii) (s : string) :
  PyStr.replace (String old "") (String new "") s =
  PyStr.map_chars (fun c => if Ascii.eqb c old then new else c) s.
Proof.
  unfold PyStr.replace.
  induction s as [|c s IH]; [reflexivity|].
  cbn [PyStr.replace_from PyStr.map_chars String.prefix String.length Nat.sub].
  rewrite Ascii.eqb_sym.
  destruct (ascii_dec old c) as [->|ne].
  - rewrite Ascii.eqb_refl.
    replace (String.prefix "" s) with true by now destruct s.
    simpl. now rewrite IH.
  - apply Ascii.eqb_neq in ne. rewrite ne. now rewrite IH.
Qed.

Lemma lower_labels (m : OutputMode) :
  PyStr.lower (mode_label m) = lowercased_label m.
Proof. now destruct m. Qed.

End StringFacts.

(** ** Prompt selection and the file name *)

(** C2, as the code has it.  For every topic [t] and each of the three
    output modes, the suggested file name is [t] with its spaces turned
    into underscores, an underscore, the mode label in lower case, and
    [.md].  Only the topic has its spaces replaced: for the topic
    [Intro to Thermodynamics] and the mode [Study Notes] the name is
    [Intro_to_Thermodynamics_study notes.md], with the space of the mode
    label kept. *)
Theorem file_name_matches_format (t : string) (m : OutputMode) :
  file_name t (mode_label m) = spec_file_name t m /\
  file_name "Intro to Thermodynamics" "Study Notes" =
    "Intro_to_Thermodynamics_study notes.md".
Proof.
  split; [|reflexivity].
  unfold file_name, spec_file_name, underscore_spaces.
  now rewrite (replace_char " " "_"), lower_labels.
Qed.

(** C2, as the claim words its example: the name for the topic
    [Intro to Thermodynamics] and the mode [Study Notes] is not
    [Intro_to_Thermodynamics_study_notes.md]. *)
Lemma file_name_example_keeps_mode_space :
  file_name "Intro to Thermodynamics" (mode_label StudyNotes) <>
    "Intro_to_Thermodynamics_study_notes.md".
Proof. discriminate. Qed.

(** C7.  For the mode [Flashcards] and any topic [t], the selected prompt
    contains [t] and contains the word [flashcards]. *)
Theorem flashcards_prompt_mentions_topic (t : string) :
  PyStr.contains t (select_prompt (mode_label Flashcards) t) = true /\
  PyStr.contains "flashcards" (select_prompt (mode_label Flashcards) t) = true.
Proof.
  change (select_prompt (mode_label Flashcards) t) with (flashcards_prompt t).
  unfold flashcards_prompt. split.
  - apply contains_middle.
  - apply contains_later.
    change (PyStr.contains "flashcards"
              (t +:+ (" and create Q&A " +:+ ("flashcards" +:+
                ". Format: **Front:** [Question] **Back:** [Answer]."))) = true).
    do 2 apply contains_later. apply contains_here.
Qed.

(** C10.  The selector is total with the quiz prompt as its fallback: any
    mode string other than [Study Notes] and [Flashcards] selects the
    multiple-choice-quiz prompt. *)
Theorem select_prompt_falls_back_to_quiz (output_type t : string) :
  output_type <> "Study Notes" ->
  output_type <> "Flashcards" ->
  select_prompt output_type t = quiz_prompt t.
Proof.
  intros H1 H2. unfold select_prompt.
  apply String.eqb_neq in H1, H2. now rewrite H1, H2.
Qed.

Lemma select_prompt_falls_back_to_quiz_witness :
  "Podcast Script" <> "Study Notes" /\
  "Podcast Script" <> "Flashcards" /\
  select_prompt "Podcast Script" "Cell Biology" =
    "Create a 5-question multiple choice quiz with correct answers and explanations based on this Cell Biology lecture.".
Proof.
  split; [discriminate|]. split; [discriminate|].
  apply (select_prompt_falls_back_to_quiz "Podcast Script" "Cell Biology");
    discriminate.
Defined.

(** ** Runs of the script *)

Section Runs.

Variable env : Env.

Lemma st_bind {B} (p : Place) (x : Widget) (k : unit -> M B) (w : World) :
  bind (st p x) k w =
    k tt (mkWorld (fs w) (page w ++ [(p, x)]) (remote_log w) (api_key w)).
Proof. reflexivity. Qed.

Lemma ret_bind {A B} (a : A) (k : A -> M B) (w : World) :
  bind (ret a) k w = k a w.
Proof. reflexivity. Qed.

Lemma fresh_name_free (files : gmap string string) (suffix n : string) :
  fresh_name env files suffix = Some n ->
  files !! temp_path env n suffix = None.
Proof.
  unfold fresh_name. intros H.
  apply find_some in H as [_ H].
  now apply bool_decide_eq_true in H.
Qed.

Lemma stage_staged (f : UploadedFile) (w : World) (n : string) :
  write_fault env = None ->
  fresh_name env (fs w) ".mp3" = Some n ->
  stage env f w =
    (Returned (temp_path env n ".mp3"),
     set_fs w (<[temp_path env n ".mp3" := uf_data f]>
                 (<[temp_path env n ".mp3" := ""]> (fs w)))).
Proof.
  intros Hw Hn.
  unfold stage, bind, NamedTemporaryFile, file_write, ret.
  rewrite Hn, Hw. reflexivity.
Qed.

(** The [finally] block never raises and removes the file if it is there. *)
Lemma cleanup_removes (p : string) (w : World) :
  cleanup p w =
    (Returned tt,
     if bool_decide (is_Some (fs w !! p)) then set_fs w (delete p (fs w)) else w).
Proof.
  unfold cleanup, bind, os_path_exists, os_remove, ret.
  case_bool_decide as E; [|reflexivity].
  destruct E as [d E]. now rewrite E.
Qed.

Lemma cleanup_fs (p : string) (w : World) :
  fs (snd (cleanup p w)) = delete p (fs w).
Proof.
  rewrite cleanup_removes. simpl.
  case_bool_decide as E; [reflexivity|].
  symmetry. apply delete_id.
  destruct (fs w !! p) eqn:E'; [|reflexivity].
  destruct E; eauto.
Qed.

(** *** Computations that only render or call the service *)

Lemma read_only_ret {A} (a : A) : read_only (ret a).
Proof. now intros w. Qed.

Lemma read_only_lift {A} (r : Result A) : read_only (lift_result r).
Proof. now intros w. Qed.

Lemma read_only_st (p : Place) (x : Widget) : read_only (st p x).
Proof. now intros w. Qed.

Lemma read_only_log (c : RemoteCall) : read_only (log_remote c).
Proof. now intros w. Qed.

Lemma read_only_bind {A B} (c : M A) (k : A -> M B) :
  read_only c -> (forall a, read_only (k a)) -> read_only (bind c k).
Proof.
  intros Hc Hk w. unfold bind.
  specialize (Hc w). destruct (c w) as [[a|e] w1]; simpl in *.
  - specialize (Hk a w1). unfold same_store in *.
    destruct Hc, Hk. split; congruence.
  - exact Hc.
Qed.

Lemma read_only_try_except {A} (body : M A) catches handler :
  read_only body -> (forall e, read_only (handler e)) ->
  read_only (try_except body catches handler).
Proof.
  intros Hb Hh w. unfold try_except.
  specialize (Hb w). destruct (body w) as [[a|e] w1]; simpl in *; [exact Hb|].
  destruct (catches (exc_class e)); [|exact Hb].
  specialize (Hh e w1). unfold same_store in *.
  destruct Hb, Hh. split; congruence.
Qed.

Lemma read_only_upload (p : string) : read_only (genai_upload_file env p).
Proof.
  intros w. unfold genai_upload_file.
  destruct (fs w !! p); [|now split].
  apply read_only_bind; auto using read_only_log, read_only_lift.
Qed.

Lemma read_only_generate_content (prompt audio : string) :
  read_only (generate_content env prompt audio).
Proof.
  intros w. unfold generate_content.
  apply read_only_bind; auto using read_only_log, read_only_lift.
Qed.

Lemma read_only_generate (inp : Inputs) (p : string) :
  read_only (generate env inp p).
Proof.
  unfold generate.
  repeat (apply read_only_bind; [|intros ?]);
    auto using read_only_upload, read_only_generate_content,
               read_only_st, read_only_lift.
Qed.

Lemma read_only_attempt (inp : Inputs) (p : string) :
  read_only (attempt env inp p).
Proof.
  apply read_only_try_except; [apply read_only_generate|].
  intros e. apply read_only_st.
Qed.

(** *** A request whose payload was staged *)

(** The request runs the guarded attempt in the staged world and then
    the cleanup, which keeps the outcome of the attempt. *)
Lemma core_logic_staged (inp : Inputs) (f : UploadedFile) (w : World) (n : string) :
  uploaded_file inp = Some f ->
  generate_button inp = true ->
  write_fault env = None ->
  fresh_name env (fs w) ".mp3" = Some n ->
  core_logic env inp w =
    (fst (attempt env inp (temp_path env n ".mp3") (staged_world env w n f)),
     snd (cleanup (temp_path env n ".mp3")
            (snd (attempt env inp (temp_path env n ".mp3")
                    (staged_world env w n f))))).
Proof.
  intros Hf Hb Hw Hn. unfold core_logic. rewrite Hf, Hb.
  unfold bind at 1. cbn [st].
  unfold bind at 1.
  erewrite stage_staged; [|exact Hw|exact Hn].
  unfold try_finally. fold (staged_world env w n f).
  destruct (attempt _ _ _ _) as [r w1]. cbn [fst snd].
  rewrite cleanup_removes. reflexivity.
Qed.

Lemma cleanup_page (p : string) (w : World) :
  page (snd (cleanup p w)) = page w.
Proof. rewrite cleanup_removes. simpl. now case_bool_decide. Qed.

Lemma cleanup_remote_log (p : string) (w : World) :
  remote_log (snd (cleanup p w)) = remote_log w.
Proof. rewrite cleanup_removes. simpl. now case_bool_decide. Qed.

Lemma cleanup_api_key (p : string) (w : World) :
  api_key (snd (cleanup p w)) = api_key w.
Proof. rewrite cleanup_removes. simpl. now case_bool_decide. Qed.

(** Whatever the remote calls do, the staged file is gone afterwards and
    the file system is as it was before the request. *)
Lemma staged_request_restores_files
    (inp : Inputs) (f : UploadedFile) (w : World) (n : string) :
  uploaded_file inp = Some f ->
  generate_button inp = true ->
  write_fault env = None ->
  fresh_name env (fs w) ".mp3" = Some n ->
  fs (snd (core_logic env inp w)) = fs w /\
  fs (snd (core_logic env inp w)) !! temp_path env n ".mp3" = None.
Proof.
  intros Hf Hb Hw Hn.
  pose proof (fresh_name_free _ _ _ Hn) as Hfree.
  assert (fs (snd (core_logic env inp w)) = fs w) as Heq.
  { rewrite (core_logic_staged inp f w n Hf Hb Hw Hn). cbn [snd].
    rewrite cleanup_fs.
    destruct (read_only_attempt inp (temp_path env n ".mp3")
                (staged_world env w n f)) as [-> _].
    cbn [staged_world fs].
    rewrite delete_insert_eq. now apply delete_insert_id. }
  split; [exact Heq|]. now rewrite Heq.
Qed.

(** *** The three outcomes of a staged request *)

Lemma unstage (files : gmap string string) (p data : string) :
  files !! p = None ->
  delete p (<[p := data]> (<[p := ""]> files)) = files.
Proof. intros H. rewrite delete_insert_eq. now apply delete_insert_id. Qed.

Lemma sweep_staged (p data : string) (w : World) pg lg :
  fs w !! p = None ->
  snd (cleanup p (mkWorld (<[p := data]> (<[p := ""]> (fs w))) pg lg (api_key w)))
  = mkWorld (fs w) pg lg (api_key w).
Proof.
  intros H. rewrite cleanup_removes. cbn.
  rewrite bool_decide_eq_true_2 by (rewrite lookup_insert_eq; eauto).
  unfold set_fs. cbn. now rewrite unstage.
Qed.

Arguments cleanup : simpl never.

Ltac run_attempt :=
  unfold staged_world, attempt, try_except, generate, on_error, bind,
    genai_upload_file, generate_content, log_remote, lift_result, st, ret;
  cbn; rewrite lookup_insert_eq; cbn.

Section Staged.

Variables (inp : Inputs) (f : UploadedFile) (w : World) (n : string).
Hypothesis Hfile : uploaded_file inp = Some f.
Hypothesis Hpress : generate_button inp = true.
Hypothesis Hwrite : write_fault env = None.
Hypothesis Hname : fresh_name env (fs w) ".mp3" = Some n.

Let p := temp_path env n ".mp3".
Let prompt := select_prompt (output_type inp) (lecture_topic inp).

Lemma core_logic_succeeds (audio r : string) :
  remote_upload env (api_key w) p (uf_data f) = Returned audio ->
  remote_generate env (api_key w) model prompt audio =
    Returned (mkResponse (Returned r)) ->
  core_logic env inp w =
    (Returned tt,
     mkWorld (fs w) (page w ++ spinner :: results inp r)
       (remote_log w ++ [UploadCall p; GenerateCall model prompt audio])
       (api_key w)).
Proof.
  intros Hup Hgen.
  rewrite (core_logic_staged inp f w n Hfile Hpress Hwrite Hname).
  run_attempt. fold p. rewrite Hup. cbn. fold prompt. rewrite Hgen. cbn.
  rewrite sweep_staged by now apply fresh_name_free.
  unfold results. now rewrite <- !app_assoc.
Qed.

Lemma core_logic_upload_raises (e : Exc) :
  remote_upload env (api_key w) p (uf_data f) = Raised e ->
  is_Exception (exc_class e) = true ->
  core_logic env inp w =
    (Returned tt,
     mkWorld (fs w) (page w ++ [spinner; error_box e])
       (remote_log w ++ [UploadCall p]) (api_key w)).
Proof.
  intros Hup He.
  rewrite (core_logic_staged inp f w n Hfile Hpress Hwrite Hname).
  run_attempt. fold p. rewrite Hup. cbn. rewrite He. cbn.
  rewrite sweep_staged by now apply fresh_name_free.
  now rewrite <- !app_assoc.
Qed.

Lemma core_logic_generation_raises (audio : string) (e : Exc) :
  remote_upload env (api_key w) p (uf_data f) = Returned audio ->
  remote_generate env (api_key w) model prompt audio = Raised e ->
  is_Exception (exc_class e) = true ->
  core_logic env inp w =
    (Returned tt,
     mkWorld (fs w) (page w ++ [spinner; error_box e])
       (remote_log w ++ [UploadCall p; GenerateCall model prompt audio])
       (api_key w)).
Proof.
  intros Hup Hgen He.
  rewrite (core_logic_staged inp f w n Hfile Hpress Hwrite Hname).
  run_attempt. fold p. rewrite Hup. cbn. fold prompt. rewrite Hgen. cbn.
  rewrite He. cbn.
  rewrite sweep_staged by now apply fresh_name_free.
  now rewrite <- !app_assoc.
Qed.

(** A response without text: [response.text] raises inside the [try],
    after the success note and the heading were rendered. *)
Lemma core_logic_text_raises (audio : string) (e : Exc) :
  remote_upload env (api_key w) p (uf_data f) = Returned audio ->
  remote_generate env (api_key w) model prompt audio =
    Returned (mkResponse (Raised e)) ->
  is_Exception (exc_class e) = true ->
  core_logic env inp w =
    (Returned tt,
     mkWorld (fs w)
       (page w ++ [spinner;
                   (Main, SuccessBox "Analysis Complete!");
                   (Main, Markdown ("### Results for: " +:+ lecture_topic inp));
                   error_box e])
       (remote_log w ++ [UploadCall p; GenerateCall model prompt audio])
       (api_key w)).
Proof.
  intros Hup Hgen He.
  rewrite (core_logic_staged inp f w n Hfile Hpress Hwrite Hname).
  run_attempt. fold p. rewrite Hup. cbn. fold prompt. rewrite Hgen. cbn.
  rewrite He. cbn.
  rewrite sweep_staged by now apply fresh_name_free.
  now rewrite <- !app_assoc.
Qed.

(** An exception that is not an [Exception] passes the handler and leaves
    the request; the [finally] block has removed the file all the same. *)
Lemma core_logic_upload_interrupted (e : Exc) :
  remote_upload env (api_key w) p (uf_data f) = Raised e ->
  is_Exception (exc_class e) = false ->
  core_logic env inp w =
    (Raised e,
     mkWorld (fs w) (page w ++ [spinner])
       (remote_log w ++ [UploadCall p]) (api_key w)).
Proof.
  intros Hup He.
  rewrite (core_logic_staged inp f w n Hfile Hpress Hwrite Hname).
  run_attempt. fold p. rewrite Hup. cbn. rewrite He. cbn.
  now rewrite sweep_staged by now apply fresh_name_free.
Qed.

End Staged.

(** *** Start-up and the form *)

Lemma configure_missing (w : World) (store : gmap string string) :
  secrets env = Returned store ->
  store !! "GEMINI_API_KEY" = None ->
  configure env w =
    (Returned tt,
     mkWorld (fs w) (page w ++ [(Main, ErrorBox config_banner)])
       (remote_log w) (api_key w)).
Proof.
  intros Hs H. unfold configure, try_except, bind, secrets_getitem.
  now rewrite Hs, H.
Qed.

Lemma configure_unreadable (w : World) (e : Exc) :
  secrets env = Raised e ->
  configure env w =
    if is_KeyError (exc_class e)
    then (Returned tt,
          mkWorld (fs w) (page w ++ [(Main, ErrorBox config_banner)])
            (remote_log w) (api_key w))
    else (Raised e, w).
Proof.
  intros Hs. unfold configure, try_except, bind, secrets_getitem, raise.
  rewrite Hs. now destruct (is_KeyError (exc_class e)).
Qed.

Lemma configure_present (w : World) (store : gmap string string) (k : string) :
  secrets env = Returned store ->
  store !! "GEMINI_API_KEY" = Some k ->
  configure env w =
    (Returned tt, mkWorld (fs w) (page w) (remote_log w) (Some k)).
Proof.
  intros Hs H. unfold configure, try_except, bind, secrets_getitem.
  now rewrite Hs, H.
Qed.

Lemma interface_run (inp : Inputs) (w : World) :
  interface inp w =
    (Returned tt,
     mkWorld (fs w) (page w ++ form inp) (remote_log w) (api_key w)).
Proof.
  unfold interface, form.
  repeat (rewrite st_bind; cbn [fs page remote_log api_key]).
  destruct (uploaded_file inp) as [f|];
    [rewrite st_bind | rewrite ret_bind];
    cbn [fs page remote_log api_key];
    repeat (rewrite st_bind; cbn [fs page remote_log api_key]);
    unfold st; cbn [fs page remote_log api_key];
    rewrite <- !app_assoc; reflexivity.
Qed.

Lemma configure_quiet (w : World) :
  fs (snd (configure env w)) = fs w /\
  remote_log (snd (configure env w)) = remote_log w.
Proof.
  unfold configure, try_except, bind, secrets_getitem, raise, ret,
    genai_configure, st.
  destruct (secrets env) as [store|e];
    [destruct (store !! "GEMINI_API_KEY") | destruct (is_KeyError (exc_class e))];
    now split.
Qed.

(** A whole run: start-up, then the form, then the request step; an
    exception of start-up ends the run before anything else. *)
Lemma app_step (inp : Inputs) (w : World) :
  app env inp w =
    match configure env w with
    | (Returned _, w1) =>
        core_logic env inp
          (mkWorld (fs w1) (page w1 ++ form inp) (remote_log w1) (api_key w1))
    | (Raised e, w1) => (Raised e, w1)
    end.
Proof.
  unfold app. unfold bind at 1.
  destruct (configure env w) as [[u|e] w1]; [|reflexivity].
  unfold bind. now rewrite interface_run.
Qed.

(** *** The log of remote calls *)

Lemma logs_only_silent {A} (P : RemoteCall -> Prop) (c : M A) :
  (forall w, remote_log (snd (c w)) = remote_log w) -> logs_only P c.
Proof.
  intros H w. exists []. rewrite H, app_nil_r. split; [reflexivity|constructor].
Qed.

Lemma logs_only_log (P : RemoteCall -> Prop) (c : RemoteCall) :
  P c -> logs_only P (log_remote c).
Proof. intros H w. exists [c]. split; [reflexivity|]. now repeat constructor. Qed.

Lemma logs_only_bind {A B} (P : RemoteCall -> Prop) (c : M A) (k : A -> M B) :
  logs_only P c -> (forall a, logs_only P (k a)) -> logs_only P (bind c k).
Proof.
  intros Hc Hk w. unfold bind.
  destruct (Hc w) as (d1 & E1 & F1).
  destruct (c w) as [[a|e] w1]; cbn [snd] in *; [|now exists d1].
  destruct (Hk a w1) as (d2 & E2 & F2).
  exists (d1 ++ d2). rewrite E2, E1, app_assoc. split; [reflexivity|].
  now apply Forall_app.
Qed.

Lemma logs_only_try_except {A} (P : RemoteCall -> Prop)
    (body : M A) catches handler :
  logs_only P body -> (forall e, logs_only P (handler e)) ->
  logs_only P (try_except body catches handler).
Proof.
  intros Hb Hh w. unfold try_except.
  destruct (Hb w) as (d1 & E1 & F1).
  destruct (body w) as [[a|e] w1]; cbn [snd] in *; [now exists d1|].
  destruct (catches (exc_class e)); [|now exists d1].
  destruct (Hh e w1) as (d2 & E2 & F2).
  exists (d1 ++ d2). rewrite E2, E1, app_assoc. split; [reflexivity|].
  now apply Forall_app.
Qed.

Lemma logs_only_try_finally {A} (P : RemoteCall -> Prop)
    (body : M A) (final : M unit) :
  logs_only P body -> logs_only P final ->
  logs_only P (try_finally body final).
Proof.
  intros Hb Hf w. unfold try_finally.
  destruct (Hb w) as (d1 & E1 & F1).
  destruct (body w) as [r w1]; cbn [snd] in *.
  destruct (Hf w1) as (d2 & E2 & F2).
  exists (d1 ++ d2). split; [|now apply Forall_app].
  destruct (final w1) as [[u|e] w2]; cbn [snd] in *;
    now rewrite E2, E1, app_assoc.
Qed.

Lemma logs_only_upload (P : RemoteCall -> Prop) (p : string) :
  (forall q, P (UploadCall q)) -> logs_only P (genai_upload_file env p).
Proof.
  intros HP w. unfold genai_upload_file.
  destruct (fs w !! p).
  - eapply (logs_only_bind P); [now apply logs_only_log|].
    intros _. now apply logs_only_silent.
  - now apply (logs_only_silent P (fun w => (Raised _, w))).
Qed.

Lemma logs_only_generate_content (P : RemoteCall -> Prop) (prompt audio : string) :
  P (GenerateCall model prompt audio) ->
  logs_only P (generate_content env prompt audio).
Proof.
  intros HP w. unfold generate_content.
  eapply (logs_only_bind P); [now apply logs_only_log|].
  intros _. now apply logs_only_silent.
Qed.

Lemma logs_only_stage (P : RemoteCall -> Prop) (f : UploadedFile) :
  logs_only P (stage env f).
Proof.
  apply logs_only_silent. intros w.
  unfold stage, bind, NamedTemporaryFile, file_write, ret.
  destruct (fresh_name env (fs w) ".mp3"); [|reflexivity].
  now destruct (write_fault env).
Qed.

(** Every generation call of a request carries the selected prompt. *)
Lemma core_logic_prompts (inp : Inputs) :
  logs_only (sends_prompt (select_prompt (output_type inp) (lecture_topic inp)))
            (core_logic env inp).
Proof.
  unfold core_logic.
  destruct (uploaded_file inp) as [f|]; [|now apply logs_only_silent].
  destruct (generate_button inp); [|now apply logs_only_silent].
  apply logs_only_bind; [now apply logs_only_silent|intros _].
  apply logs_only_bind; [apply logs_only_stage|intros p].
  apply logs_only_try_finally.
  - apply logs_only_try_except; [|intros e; now apply logs_only_silent].
    unfold generate.
    apply logs_only_bind; [now apply logs_only_upload|intros audio].
    apply logs_only_bind; [now apply logs_only_generate_content|intros resp].
    repeat (apply logs_only_bind; [now apply logs_only_silent|intros ?]).
    now apply logs_only_silent.
  - apply logs_only_silent. intros w. apply cleanup_remote_log.
Qed.

End Runs.

(** ** The temporary staging file *)

(** When the write of the payload fails, the exception leaves the request
    before the [try] is entered: the file [tempfile] created stays. *)
Lemma failed_write_keeps_file
    (env : Env) (inp : Inputs) (f : UploadedFile) (w : World) (n : string) (e : Exc) :
  uploaded_file inp = Some f ->
  generate_button inp = true ->
  write_fault env = Some e ->
  fresh_name env (fs w) ".mp3" = Some n ->
  fst (core_logic env inp w) = Raised e /\
  fs w !! temp_path env n ".mp3" = None /\
  fs (snd (core_logic env inp w)) !! temp_path env n ".mp3" =
    Some (PyStr.take (written_before_fault env) (uf_data f)).
Proof.
  intros Hf Hb Hw Hn.
  assert (core_logic env inp w =
            (Raised e,
             mkWorld (<[temp_path env n ".mp3" :=
                          PyStr.take (written_before_fault env) (uf_data f)]>
                        (<[temp_path env n ".mp3" := ""]> (fs w)))
               (page w ++ [spinner]) (remote_log w) (api_key w))) as ->.
  { unfold core_logic. rewrite Hf, Hb, st_bind.
    unfold bind, stage, bind, NamedTemporaryFile, file_write.
    cbn [fs]. now rewrite Hn, Hw. }
  cbn [fst snd fs].
  split; [reflexivity|]. split; [now apply (fresh_name_free env)|].
  apply lookup_insert_eq.
Qed.

(** C1, on a full disk.  The recording is staged under
    [/tmp/tmpk3x9qz1a.mp3] and the write of its payload raises [OSError]:
    the request ends with that exception, nothing was sent to the remote
    service, and the temporary file is still there, whereas the same
    request on a healthy disk leaves no file behind. *)
Theorem temp_file_survives_failed_write :
  fs (start ∅) !! Mock.staged_path = None /\
  fst (core_logic Mock.disk_full Mock.flashcards_request (start ∅)) =
    Raised (mkExc OSError "[Errno 28] No space left on device") /\
  remote_log (snd (core_logic Mock.disk_full Mock.flashcards_request (start ∅))) = [] /\
  fs (snd (core_logic Mock.disk_full Mock.flashcards_request (start ∅)))
    !! Mock.staged_path = Some "" /\
  fs (snd (core_logic Mock.healthy Mock.flashcards_request (start ∅)))
    !! Mock.staged_path = None.
Proof. repeat split; vm_compute; reflexivity. Qed.

(** ** Requests without a recording *)

(** C3.  Without an uploaded recording the generation step does nothing,
    whatever the topic, the mode and the trigger: the world is returned as
    it was (no file staged, no remote call, nothing rendered, no error),
    and a whole run of the page with the trigger pressed equals the run
    with the trigger released. *)
Theorem no_recording_is_no_op (env : Env) (inp : Inputs) (w : World) :
  uploaded_file inp = None ->
  core_logic env inp w = (Returned tt, w) /\
  rendered (core_logic env inp) w = [] /\
  new_calls (core_logic env inp) w = [] /\
  new_calls (app env inp) w = [] /\
  fs (snd (app env inp w)) = fs w /\
  app env inp w =
    app env (mkInputs (lecture_topic inp) (output_type inp) None false) w.
Proof.
  intros H.
  assert (core_logic env inp w = (Returned tt, w)) as Hcore
    by (unfold core_logic; now rewrite H).
  split; [exact Hcore|].
  unfold rendered, new_calls. rewrite Hcore. cbn [snd].
  rewrite !drop_all. do 2 (split; [reflexivity|]).
  destruct (configure_quiet env w) as [Hfs Hlog].
  rewrite !app_step, <- Hfs, <- Hlog.
  destruct (configure env w) as [[u|e] w1]; cbn [fst snd].
  - unfold core_logic, form. cbn [uploaded_file output_type]. rewrite H.
    cbn [snd fs remote_log]. rewrite drop_all. now repeat split.
  - rewrite drop_all. now repeat split.
Qed.

Lemma no_recording_is_no_op_witness :
  uploaded_file Mock.no_recording_request = None /\
  core_logic Mock.healthy Mock.no_recording_request (start ∅) =
    (Returned tt, start ∅).
Proof.
  split; [reflexivity|].
  exact (proj1 (no_recording_is_no_op Mock.healthy Mock.no_recording_request
                  (start ∅) eq_refl)).
Defined.

(** ** Successful generation *)

(** C4.  When the payload is staged, the upload returns a reference and
    the generation call returns a response with text [r], the request
    completes and renders, after the spinner, the success note, the
    heading, [r] itself as markdown and a download control whose content
    is [r], unmodified. *)
Theorem generated_text_is_rendered_and_offered
    (env : Env) (inp : Inputs) (f : UploadedFile) (w : World) (n audio r : string) :
  uploaded_file inp = Some f ->
  generate_button inp = true ->
  write_fault env = None ->
  fresh_name env (fs w) ".mp3" = Some n ->
  remote_upload env (api_key w) (temp_path env n ".mp3") (uf_data f) =
    Returned audio ->
  remote_generate env (api_key w) model
    (select_prompt (output_type inp) (lecture_topic inp)) audio =
    Returned (mkResponse (Returned r)) ->
  fst (core_logic env inp w) = Returned tt /\
  rendered (core_logic env inp) w =
    [(Main, Spinner "Analyzing lecture content...");
     (Main, SuccessBox "Analysis Complete!");
     (Main, Markdown ("### Results for: " +:+ lecture_topic inp));
     (Main, Markdown r);
     (Main, DownloadButton
              (mkDownload "📥 Save Results as Markdown" r
                 (file_name (lecture_topic inp) (output_type inp))
                 "text/markdown"))].
Proof.
  intros Hf Hb Hw Hn Hup Hgen. unfold rendered.
  rewrite (core_logic_succeeds env inp f w n Hf Hb Hw Hn audio r Hup Hgen).
  split; [reflexivity|]. cbn [snd page]. apply drop_app_length.
Qed.

Lemma generated_text_is_rendered_and_offered_witness :
  rendered (core_logic Mock.healthy Mock.flashcards_request) (start ∅) =
    [(Main, Spinner "Analyzing lecture content...");
     (Main, SuccessBox "Analysis Complete!");
     (Main, Markdown "### Results for: Cell Biology");
     (Main, Markdown "**Front:** What is a cell? **Back:** The basic unit of life.");
     (Main, DownloadButton
              (mkDownload "📥 Save Results as Markdown"
                 "**Front:** What is a cell? **Back:** The basic unit of life."
                 "Cell_Biology_flashcards.md" "text/markdown"))].
Proof.
  exact (proj2 (generated_text_is_rendered_and_offered
                  Mock.healthy Mock.flashcards_request Mock.wav_recording
                  (start ∅) "k3x9qz1a" "files/lecture-1" Mock.flashcard_text
                  eq_refl eq_refl eq_refl eq_refl eq_refl eq_refl)).
Defined.

(** ** Failing remote calls *)

(** C5.  When the payload is staged and the upload, or the generation
    call after a successful upload, raises an error [e] (an instance of
    [Exception]), the request still completes normally: the handler
    renders one error message, which contains the description of [e], no
    download control is rendered, and the world is back where it was
    before the request apart from the page and the log (the staged file
    is gone), so the next run starts afresh. *)
Theorem remote_error_is_caught_and_shown
    (env : Env) (inp : Inputs) (f : UploadedFile) (w : World) (n : string) (e : Exc) :
  uploaded_file inp = Some f ->
  generate_button inp = true ->
  write_fault env = None ->
  fresh_name env (fs w) ".mp3" = Some n ->
  is_Exception (exc_class e) = true ->
  (remote_upload env (api_key w) (temp_path env n ".mp3") (uf_data f) = Raised e \/
   exists audio,
     remote_upload env (api_key w) (temp_path env n ".mp3") (uf_data f) =
       Returned audio /\
     remote_generate env (api_key w) model
       (select_prompt (output_type inp) (lecture_topic inp)) audio = Raised e) ->
  fst (core_logic env inp w) = Returned tt /\
  rendered (core_logic env inp) w =
    [(Main, Spinner "Analyzing lecture content...");
     (Main, ErrorBox ("Processing Error: " +:+ exc_str e))] /\
  PyStr.contains (exc_str e) ("Processing Error: " +:+ exc_str e) = true /\
  filter is_download (rendered (core_logic env inp) w) = [] /\
  fs (snd (core_logic env inp w)) = fs w /\
  api_key (snd (core_logic env inp w)) = api_key w.
Proof.
  intros Hf Hb Hw Hn He Hr. unfold rendered.
  assert (exists calls,
            core_logic env inp w =
              (Returned tt,
               mkWorld (fs w) (page w ++ [spinner; error_box e])
                 (remote_log w ++ calls) (api_key w))) as [calls ->].
  { destruct Hr as [Hup | (audio & Hup & Hgen)]; eexists.
    - exact (core_logic_upload_raises env inp f w n Hf Hb Hw Hn e Hup He).
    - exact (core_logic_generation_raises env inp f w n Hf Hb Hw Hn audio e
               Hup Hgen He). }
  cbn [fst snd page fs api_key]. rewrite drop_app_length.
  split; [reflexivity|]. split; [reflexivity|].
  split; [apply contains_later, contains_self|].
  repeat split.
Qed.

Lemma remote_error_is_caught_and_shown_witness :
  fst (core_logic Mock.generation_fails Mock.flashcards_request (start ∅)) =
    Returned tt /\
  rendered (core_logic Mock.generation_fails Mock.flashcards_request) (start ∅) =
    [(Main, Spinner "Analyzing lecture content...");
     (Main, ErrorBox "Processing Error: 429 Quota exceeded")].
Proof.
  pose proof (remote_error_is_caught_and_shown
                Mock.generation_fails Mock.flashcards_request Mock.wav_recording
                (start ∅) "k3x9qz1a" (mkExc RemoteError "429 Quota exceeded")
                eq_refl eq_refl eq_refl eq_refl eq_refl
                (or_intror (ex_intro _ "files/lecture-1" (conj eq_refl eq_refl))))
    as (H1 & H2 & _).
  exact (conj H1 H2).
Defined.

(** ** The prompt sent to the model *)

(** C6.  The prompt is a function of the mode and the topic alone.  Take
    any two requests with the same mode and the same topic, in any two
    environments and worlds (other recordings, other files, other answers
    of the remote service): every prompt the one sends and every prompt
    the other sends are the same string, namely the one the selector
    gives for that mode and topic.  The selector itself is a total
    function of the two strings: it takes no world and returns none. *)
Theorem prompt_depends_only_on_mode_and_topic
    (env1 env2 : Env) (inp1 inp2 : Inputs) (w1 w2 : World) (p1 p2 : string) :
  output_type inp1 = output_type inp2 ->
  lecture_topic inp1 = lecture_topic inp2 ->
  In p1 (prompts_of (new_calls (core_logic env1 inp1) w1)) ->
  In p2 (prompts_of (new_calls (core_logic env2 inp2) w2)) ->
  p1 = p2 /\ p1 = select_prompt (output_type inp1) (lecture_topic inp1).
Proof.
  intros Hm Ht H1 H2.
  assert (forall env inp w p,
            In p (prompts_of (new_calls (core_logic env inp) w)) ->
            p = select_prompt (output_type inp) (lecture_topic inp)) as sent.
  { intros env inp w p. unfold new_calls.
    destruct (core_logic_prompts env inp w) as (calls & -> & Hall).
    rewrite drop_app_length. unfold prompts_of. rewrite in_flat_map.
    intros (c & Hc & Hp).
    rewrite Forall_forall in Hall. apply list_elem_of_In, Hall in Hc.
    destruct c as [q|m q a]; cbn in *; [contradiction|].
    destruct Hp as [<-|[]]. exact Hc. }
  apply sent in H1, H2. rewrite <- Hm, <- Ht in H2. split; congruence.
Qed.

Lemma prompt_depends_only_on_mode_and_topic_witness :
  "Identify key terms from this lecture on Cell Biology and create Q&A flashcards. Format: **Front:** [Question] **Back:** [Answer]."
  = select_prompt "Flashcards" "Cell Biology".
Proof.
  apply (prompt_depends_only_on_mode_and_topic
           Mock.healthy Mock.generation_fails
           Mock.flashcards_request
           (mkInputs "Cell Biology" "Flashcards" (Some Mock.m4a_recording) true)
           (start ∅) (start {[ "/tmp/notes.txt" := "kept" ]})
           _ (select_prompt "Flashcards" "Cell Biology"));
    try reflexivity; vm_compute; left; reflexivity.
Defined.

(** ** The MP3 assumption *)

(** C9.  Whatever name and type the upload declares, playback is
    declared as [audio/mp3] and the staging file gets the suffix [.mp3]:
    the player shown by the form has that format, every path staging
    returns ends in [.mp3] and holds the payload, and two recordings with
    the same payload but different declared names and types give the same
    run of the whole page. *)
Theorem staging_and_playback_assume_mp3
    (env : Env) (inp : Inputs) (f : UploadedFile) (w : World) :
  uploaded_file inp = Some f ->
  In (Col1, Audio (uf_data f) "audio/mp3") (rendered (interface inp) w) /\
  (forall data format,
     In (Col1, Audio data format) (rendered (interface inp) w) ->
     format = "audio/mp3") /\
  (forall p w',
     stage env f w = (Returned p, w') ->
     PyStr.endswith p ".mp3" = true /\ fs w' !! p = Some (uf_data f)) /\
  (forall name type,
     app env (mkInputs (lecture_topic inp) (output_type inp)
                (Some (mkUploadedFile name type (uf_data f)))
                (generate_button inp)) w
     = app env inp w).
Proof.
  intros Hf. unfold rendered. rewrite interface_run. cbn [snd page].
  rewrite drop_app_length. unfold form. rewrite Hf.
  split; [cbn; tauto|].
  split.
  { intros data format H. cbn in H.
    repeat (destruct H as [H|H]; [congruence|]). destruct H. }
  split.
  { intros p w'. unfold stage, bind, NamedTemporaryFile, file_write, ret.
    destruct (fresh_name env (fs w) ".mp3") as [n|]; [|discriminate].
    destruct (write_fault env); [discriminate|].
    intros [= <- <-]. split.
    - unfold temp_path. do 2 apply endswith_later. apply endswith_app.
    - apply lookup_insert_eq. }
  intros name type. destruct inp as [t m u b]. cbn in Hf. subst u.
  destruct f as [name0 type0 data].
  unfold app, interface, core_logic, attempt, generate, stage.
  cbn [uploaded_file uf_data lecture_topic output_type generate_button].
  reflexivity.
Qed.

Lemma staging_and_playback_assume_mp3_witness :
  uf_type Mock.wav_recording = "audio/wav" /\
  In (Col1, Audio "RIFF-WAVE-payload" "audio/mp3")
     (rendered (interface Mock.flashcards_request) (start ∅)) /\
  PyStr.endswith
    (match fst (stage Mock.healthy Mock.wav_recording (start ∅)) with
     | Returned p => p
     | Raised _ => ""
     end) ".mp3" = true.
Proof.
  split; [reflexivity|].
  destruct (staging_and_playback_assume_mp3
              Mock.healthy Mock.flashcards_request Mock.wav_recording (start ∅)
              eq_refl) as (H1 & _ & H3 & _).
  split; [exact H1|].
  exact (proj1 (H3 _ _ eq_refl)).
Defined.

(** * Further properties of the script *)

(** ** Every way a request can end *)

Section Outcomes.

Variable env : Env.

Arguments cleanup : simpl never.

Ltac step_attempt :=
  unfold staged_world, attempt, try_except, generate, on_error, bind,
    genai_upload_file, generate_content, log_remote, lift_result, st, ret;
  cbn; rewrite lookup_insert_eq; cbn.

Lemma core_logic_idle (inp : Inputs) (w : World) :
  uploaded_file inp = None \/ generate_button inp = false ->
  core_logic env inp w = (Returned tt, w).
Proof.
  unfold core_logic. intros [-> | ->]; [reflexivity|].
  now destruct (uploaded_file inp).
Qed.

Lemma core_logic_no_name (inp : Inputs) (f : UploadedFile) (w : World) :
  uploaded_file inp = Some f ->
  generate_button inp = true ->
  fresh_name env (fs w) ".mp3" = None ->
  core_logic env inp w =
    (Raised (mkExc FileExistsError
               "[Errno 17] No usable temporary file name found"),
     mkWorld (fs w) (page w ++ [spinner]) (remote_log w) (api_key w)).
Proof.
  intros Hf Hb Hn. unfold core_logic. rewrite Hf, Hb, st_bind.
  unfold bind, stage, bind, NamedTemporaryFile. cbn [fs]. now rewrite Hn.
Qed.

Lemma core_logic_write_failed
    (inp : Inputs) (f : UploadedFile) (w : World) (n : string) (e : Exc) :
  uploaded_file inp = Some f ->
  generate_button inp = true ->
  fresh_name env (fs w) ".mp3" = Some n ->
  write_fault env = Some e ->
  core_logic env inp w =
    (Raised e,
     mkWorld (<[temp_path env n ".mp3" :=
                  PyStr.take (written_before_fault env) (uf_data f)]> (fs w))
       (page w ++ [spinner]) (remote_log w) (api_key w)).
Proof.
  intros Hf Hb Hn Hw. unfold core_logic. rewrite Hf, Hb, st_bind.
  unfold bind, stage, bind, NamedTemporaryFile, file_write.
  cbn [fs]. rewrite Hn, Hw. unfold set_fs. cbn [fs page remote_log api_key].
  now rewrite insert_insert_eq.
Qed.

Section OnStaged.

Variables (inp : Inputs) (f : UploadedFile) (w : World) (n : string).
Hypothesis Hstaged : staged env inp w f n.

Lemma core_logic_upload_fails (e : Exc) :
  remote_upload env (api_key w) (temp_path env n ".mp3") (uf_data f) = Raised e ->
  core_logic env inp w =
    (handled e,
     mkWorld (fs w) (page w ++ spinner :: shown e)
       (remote_log w ++ [UploadCall (temp_path env n ".mp3")]) (api_key w)).
Proof.
  destruct Hstaged as (Hf & Hb & Hw & Hn). intros Hup.
  rewrite (core_logic_staged env inp f w n Hf Hb Hw Hn).
  unfold handled, shown. step_attempt. rewrite Hup. cbn.
  destruct (is_Exception (exc_class e)); cbn;
    rewrite sweep_staged by (now apply (fresh_name_free env));
    now rewrite <- ?app_assoc.
Qed.

Lemma core_logic_generation_fails (audio : string) (e : Exc) :
  remote_upload env (api_key w) (temp_path env n ".mp3") (uf_data f) =
    Returned audio ->
  remote_generate env (api_key w) model
    (select_prompt (output_type inp) (lecture_topic inp)) audio = Raised e ->
  core_logic env inp w =
    (handled e,
     mkWorld (fs w) (page w ++ spinner :: shown e)
       (remote_log w ++
          [UploadCall (temp_path env n ".mp3");
           GenerateCall model
             (select_prompt (output_type inp) (lecture_topic inp)) audio])
       (api_key w)).
Proof.
  destruct Hstaged as (Hf & Hb & Hw & Hn). intros Hup Hgen.
  rewrite (core_logic_staged env inp f w n Hf Hb Hw Hn).
  unfold handled, shown. step_attempt. rewrite Hup. cbn. rewrite Hgen. cbn.
  destruct (is_Exception (exc_class e)); cbn;
    rewrite sweep_staged by (now apply (fresh_name_free env));
    now rewrite <- ?app_assoc.
Qed.

Lemma core_logic_text_missing (audio : string) (e : Exc) :
  remote_upload env (api_key w) (temp_path env n ".mp3") (uf_data f) =
    Returned audio ->
  remote_generate env (api_key w) model
    (select_prompt (output_type inp) (lecture_topic inp)) audio =
    Returned (mkResponse (Raised e)) ->
  core_logic env inp w =
    (handled e,
     mkWorld (fs w)
       (page w ++ spinner ::
          (Main, SuccessBox "Analysis Complete!") ::
          (Main, Markdown ("### Results for: " +:+ lecture_topic inp)) ::
          shown e)
       (remote_log w ++
          [UploadCall (temp_path env n ".mp3");
           GenerateCall model
             (select_prompt (output_type inp) (lecture_topic inp)) audio])
       (api_key w)).
Proof.
  destruct Hstaged as (Hf & Hb & Hw & Hn). intros Hup Hgen.
  rewrite (core_logic_staged env inp f w n Hf Hb Hw Hn).
  unfold handled, shown. step_attempt. rewrite Hup. cbn. rewrite Hgen. cbn.
  destruct (is_Exception (exc_class e)); cbn;
    rewrite sweep_staged by (now apply (fresh_name_free env));
    now rewrite <- ?app_assoc.
Qed.

Lemma core_logic_completes (audio r : string) :
  remote_upload env (api_key w) (temp_path env n ".mp3") (uf_data f) =
    Returned audio ->
  remote_generate env (api_key w) model
    (select_prompt (output_type inp) (lecture_topic inp)) audio =
    Returned (mkResponse (Returned r)) ->
  core_logic env inp w =
    (Returned tt,
     mkWorld (fs w) (page w ++ spinner :: results inp r)
       (remote_log w ++
          [UploadCall (temp_path env n ".mp3");
           GenerateCall model
             (select_prompt (output_type inp) (lecture_topic inp)) audio])
       (api_key w)).
Proof.
  destruct Hstaged as (Hf & Hb & Hw & Hn).
  apply (core_logic_succeeds env inp f w n Hf Hb Hw Hn).
Qed.

End OnStaged.

(** The relation covers the function: every run of lines 126-164 ends in
    one of the listed ways. *)
Lemma core_logic_outcome (inp : Inputs) (w : World) :
  Outcome env inp w (fst (core_logic env inp w)) (snd (core_logic env inp w)).
Proof.
  destruct (uploaded_file inp) as [f|] eqn:Hf;
    [|rewrite core_logic_idle by (now left); apply Idle; now left].
  destruct (generate_button inp) eqn:Hb;
    [|rewrite core_logic_idle by (now right); apply Idle; now right].
  destruct (fresh_name env (fs w) ".mp3") as [n|] eqn:Hn;
    [|rewrite (core_logic_no_name inp f w Hf Hb Hn); now apply (NoName env inp w f)].
  destruct (write_fault env) as [e|] eqn:Hw;
    [rewrite (core_logic_write_failed inp f w n e Hf Hb Hn Hw);
     now apply (WriteFailed env inp w f n e)|].
  assert (staged env inp w f n) as Hs by (now unfold staged).
  destruct (remote_upload env (api_key w) (temp_path env n ".mp3") (uf_data f))
    as [audio|e] eqn:Hup;
    [|rewrite (core_logic_upload_fails inp f w n Hs e Hup);
      now apply (UploadFailed env inp w f n e)].
  destruct (remote_generate env (api_key w) model
              (select_prompt (output_type inp) (lecture_topic inp)) audio)
    as [[[r|e]]|e] eqn:Hgen.
  - rewrite (core_logic_completes inp f w n Hs audio r Hup Hgen).
    now apply (Succeeded env inp w f n audio r).
  - rewrite (core_logic_text_missing inp f w n Hs audio e Hup Hgen).
    now apply (TextMissing env inp w f n audio e).
  - rewrite (core_logic_generation_fails inp f w n Hs audio e Hup Hgen).
    now apply (GenerationFailed env inp w f n audio e).
Qed.

End Outcomes.

Ltac by_outcome env inp w :=
  let H := fresh "Hout" in
  pose proof (core_logic_outcome env inp w) as H;
  destruct (core_logic env inp w) as [r w']; cbn [fst snd] in *;
  destruct H.

(** When the secrets store can be read, a whole run is the request step
    started on the page that start-up and the form have rendered, with
    the credential start-up found. *)
Lemma app_run (env : Env) (store : gmap string string) (inp : Inputs) (w : World) :
  secrets env = Returned store ->
  app env inp w =
    core_logic env inp
      (mkWorld (fs w) (page w ++ banner env ++ form inp) (remote_log w)
         (match store !! "GEMINI_API_KEY" with
          | Some k => Some k
          | None => api_key w
          end)).
Proof.
  intros Hs. rewrite app_step. unfold banner. rewrite Hs.
  destruct (store !! "GEMINI_API_KEY") as [k|] eqn:E.
  - rewrite (configure_present env w store k Hs E).
    cbn [fs page remote_log api_key app]. reflexivity.
  - rewrite (configure_missing env w store Hs E).
    cbn [fs page remote_log api_key]. now rewrite <- app_assoc.
Qed.

(** When reading the store raises anything but a [KeyError], the run ends
    at line 11 with that exception and the world as it was. *)
Lemma app_unreadable (env : Env) (e : Exc) (inp : Inputs) (w : World) :
  secrets env = Raised e ->
  is_KeyError (exc_class e) = false ->
  app env inp w = (Raised e, w).
Proof.
  intros Hs He. now rewrite app_step, (configure_unreadable env w e Hs), He.
Qed.

Lemma take_is_prefix (k : nat) (s : string) :
  String.prefix (PyStr.take k s) s = true.
Proof.
  revert s. induction k as [|k IH]; intros [|c s]; cbn; try reflexivity.
  destruct (ascii_dec c c) as [_|ne]; [apply IH | now destruct ne].
Qed.

(** ** The staged file and the other files *)

(** X1.  Once the payload is staged, the file is removed whatever the
    upload and the generation call do (return, raise an error, or raise
    something the handler does not catch): after the request the staged
    path is absent, the file system is exactly as before the request, and
    the same temporary name can be drawn again. *)
Theorem staged_file_is_removed_on_every_remote_outcome
    (env : Env) (inp : Inputs) (w : World) (f : UploadedFile) (n : string) :
  staged env inp w f n ->
  fs (snd (core_logic env inp w)) !! temp_path env n ".mp3" = None /\
  fs (snd (core_logic env inp w)) = fs w /\
  fresh_name env (fs (snd (core_logic env inp w))) ".mp3" = Some n.
Proof.
  intros (Hf & Hb & Hw & Hn).
  destruct (staged_request_restores_files env inp f w n Hf Hb Hw Hn) as [Heq Hgone].
  split; [exact Hgone|]. split; [exact Heq|]. now rewrite Heq.
Qed.

Lemma staged_file_is_removed_on_every_remote_outcome_witness :
  fs (snd (core_logic Mock.interrupted Mock.flashcards_request
             (start Mock.notes_on_disk))) = Mock.notes_on_disk.
Proof.
  exact (proj1 (proj2 (staged_file_is_removed_on_every_remote_outcome
                         Mock.interrupted Mock.flashcards_request
                         (start Mock.notes_on_disk) Mock.wav_recording "k3x9qz1a"
                         (conj eq_refl (conj eq_refl (conj eq_refl eq_refl)))))).
Defined.

(** X2.  A request never changes or deletes a file that was there before
    it, on any path, staging failures included; and the only file it can
    leave behind is the [.mp3] staging file of a failed write, holding the
    part of the payload that was written before the failure. *)
Theorem request_keeps_existing_files (env : Env) (inp : Inputs) (w : World) :
  (forall q d,
     fs w !! q = Some d -> fs (snd (core_logic env inp w)) !! q = Some d) /\
  (forall q,
     fs w !! q = None ->
     fs (snd (core_logic env inp w)) !! q <> None ->
     PyStr.endswith q ".mp3" = true /\
     exists f e,
       uploaded_file inp = Some f /\
       write_fault env = Some e /\
       fst (core_logic env inp w) = Raised e /\
       fs (snd (core_logic env inp w)) !! q =
         Some (PyStr.take (written_before_fault env) (uf_data f)) /\
       String.prefix (PyStr.take (written_before_fault env) (uf_data f))
                     (uf_data f) = true).
Proof.
  by_outcome env inp w; cbn [fs]; split;
    try (now intros q d Hq); try (intros q Hq Hnew; now destruct Hnew).
  - intros q d Hq. rewrite lookup_insert_ne; [exact Hq|].
    intros <-. rewrite (fresh_name_free env _ _ _ H1) in Hq. discriminate.
  - intros q Hq Hnew.
    destruct (decide (q = temp_path env n ".mp3")) as [->|Hne].
    + split; [unfold temp_path; do 2 apply endswith_later; apply endswith_app|].
      exists f, e. repeat split; try assumption.
      * apply lookup_insert_eq.
      * apply take_is_prefix.
    + rewrite lookup_insert_ne in Hnew by congruence. now destruct Hnew.
Qed.

Lemma request_keeps_existing_files_witness :
  fs (snd (core_logic Mock.size_limited Mock.flashcards_request
             (start Mock.notes_on_disk))) !! "/home/user/notes.txt" = Some "kept" /\
  exists f e,
    uploaded_file Mock.flashcards_request = Some f /\
    write_fault Mock.size_limited = Some e /\
    fst (core_logic Mock.size_limited Mock.flashcards_request
           (start Mock.notes_on_disk)) = Raised e /\
    fs (snd (core_logic Mock.size_limited Mock.flashcards_request
               (start Mock.notes_on_disk))) !! Mock.staged_path =
      Some (PyStr.take (written_before_fault Mock.size_limited) (uf_data f)) /\
    String.prefix (PyStr.take (written_before_fault Mock.size_limited) (uf_data f))
                  (uf_data f) = true.
Proof.
  destruct (request_keeps_existing_files
              Mock.size_limited Mock.flashcards_request (start Mock.notes_on_disk))
    as [Hkept Hnew].
  split; [exact (Hkept "/home/user/notes.txt" "kept" eq_refl)|].
  refine (proj2 (Hnew Mock.staged_path _ _)).
  - vm_compute; reflexivity.
  - vm_compute; discriminate.
Defined.

(** X3.  When every name [tempfile] draws is taken, staging raises a
    [FileExistsError] before anything is written: the request ends with
    that exception after the spinner, no remote call is made and the file
    system, the older file under that name included, is untouched. *)
Theorem no_free_temp_name_stops_the_request
    (env : Env) (inp : Inputs) (w : World) (f : UploadedFile) :
  uploaded_file inp = Some f ->
  generate_button inp = true ->
  fresh_name env (fs w) ".mp3" = None ->
  (exists e, fst (core_logic env inp w) = Raised e /\
             exc_class e = FileExistsError) /\
  rendered (core_logic env inp) w = [spinner] /\
  new_calls (core_logic env inp) w = [] /\
  fs (snd (core_logic env inp w)) = fs w.
Proof.
  intros Hf Hb Hn. unfold rendered, new_calls.
  rewrite (core_logic_no_name env inp f w Hf Hb Hn). cbn [fst snd fs page remote_log].
  split; [now eexists|]. split; [apply drop_app_length|].
  split; [apply drop_all|reflexivity].
Qed.

Lemma no_free_temp_name_stops_the_request_witness :
  fresh_name Mock.healthy Mock.crowded ".mp3" = None /\
  fs (snd (core_logic Mock.healthy Mock.flashcards_request (start Mock.crowded)))
    = Mock.crowded.
Proof.
  split; [vm_compute; reflexivity|].
  refine (proj2 (proj2 (proj2 (no_free_temp_name_stops_the_request
                                 Mock.healthy Mock.flashcards_request
                                 (start Mock.crowded) Mock.wav_recording
                                 eq_refl eq_refl _)))).
  vm_compute; reflexivity.
Defined.

(** ** What a request sends and shows *)

(** X4.  A request is never retried: it makes no remote call at all, or
    one upload of the staged path, or that upload followed by one
    generation call, which names the model, carries the selected prompt
    and passes on the reference the upload returned. *)
Theorem request_makes_one_upload_then_one_generation
    (env : Env) (inp : Inputs) (w : World) :
  new_calls (core_logic env inp) w = [] \/
  exists f n,
    staged env inp w f n /\
    (new_calls (core_logic env inp) w = [UploadCall (temp_path env n ".mp3")] \/
     exists audio,
       remote_upload env (api_key w) (temp_path env n ".mp3") (uf_data f) =
         Returned audio /\
       new_calls (core_logic env inp) w =
         [UploadCall (temp_path env n ".mp3");
          GenerateCall "gemini-3-flash-preview"
            (select_prompt (output_type inp) (lecture_topic inp)) audio]).
Proof.
  unfold new_calls.
  by_outcome env inp w; cbn [remote_log];
    try (left; apply drop_all);
    right; exists f, n; (split; [assumption|]); rewrite drop_app_length;
    try (now left); right; now exists audio.
Qed.

(** X5.  A download control is rendered only by a request that
    succeeded: if one is on the page, the payload was staged, the upload
    returned a reference, the generation call returned a response with
    text, the request returned normally, and the control carries that
    text, the file name built from topic and mode, and the markdown type. *)
Theorem download_is_offered_only_on_success
    (env : Env) (inp : Inputs) (w : World) (d : Download) :
  In (Main, DownloadButton d) (rendered (core_logic env inp) w) ->
  fst (core_logic env inp w) = Returned tt /\
  dl_file_name d = file_name (lecture_topic inp) (output_type inp) /\
  dl_mime d = "text/markdown" /\
  exists f n audio,
    staged env inp w f n /\
    remote_upload env (api_key w) (temp_path env n ".mp3") (uf_data f) =
      Returned audio /\
    remote_generate env (api_key w) model
      (select_prompt (output_type inp) (lecture_topic inp)) audio =
      Returned (mkResponse (Returned (dl_data d))).
Proof.
  unfold rendered.
  by_outcome env inp w; cbn [page]; rewrite ?drop_all, ?drop_app_length;
    unfold shown, error_box, spinner; try destruct (is_Exception (exc_class e));
    cbn [In]; intros Hin;
    repeat (destruct Hin as [Hin|Hin]; [try discriminate|]); try contradiction.
  injection Hin as <-. cbn.
  repeat (split; [reflexivity|]). now exists f, n, audio.
Qed.

Lemma download_is_offered_only_on_success_witness :
  fst (core_logic Mock.healthy Mock.flashcards_request (start ∅)) = Returned tt.
Proof.
  refine (proj1 (download_is_offered_only_on_success
                   Mock.healthy Mock.flashcards_request (start ∅)
                   (mkDownload "📥 Save Results as Markdown" Mock.flashcard_text
                      "Cell_Biology_flashcards.md" "text/markdown") _)).
  vm_compute. do 4 right. left. reflexivity.
Defined.



(** X7.  When the generation call returns a response without text, the
    error comes from reading the text, after the success note and the
    heading are already on the page: the request renders the spinner, the
    note [Analysis Complete!], the heading, then the processing-error
    message, offers no download, and returns normally. *)
Theorem missing_text_is_reported_after_the_success_note
    (env : Env) (inp : Inputs) (w : World) (f : UploadedFile)
    (n audio : string) (e : Exc) :
  staged env inp w f n ->
  remote_upload env (api_key w) (temp_path env n ".mp3") (uf_data f) =
    Returned audio ->
  remote_generate env (api_key w) model
    (select_prompt (output_type inp) (lecture_topic inp)) audio =
    Returned (mkResponse (Raised e)) ->
  is_Exception (exc_class e) = true ->
  fst (core_logic env inp w) = Returned tt /\
  rendered (core_logic env inp) w =
    [(Main, Spinner "Analyzing lecture content...");
     (Main, SuccessBox "Analysis Complete!");
     (Main, Markdown ("### Results for: " +:+ lecture_topic inp));
     (Main, ErrorBox ("Processing Error: " +:+ exc_str e))] /\
  filter is_download (rendered (core_logic env inp) w) = [] /\
  fs (snd (core_logic env inp w)) = fs w.
Proof.
  intros Hs Hup Hgen He. unfold rendered.
  rewrite (core_logic_text_missing env inp f w n Hs audio e Hup Hgen).
  unfold handled, shown. rewrite He. cbn [fst snd page fs].
  rewrite drop_app_length. now repeat split.
Qed.

Lemma missing_text_is_reported_after_the_success_note_witness :
  rendered (core_logic Mock.blocked Mock.flashcards_request) (start ∅) =
    [(Main, Spinner "Analyzing lecture content...");
     (Main, SuccessBox "Analysis Complete!");
     (Main, Markdown "### Results for: Cell Biology");
     (Main, ErrorBox "Processing Error: The response has no valid part.")].
Proof.
  exact (proj1 (proj2 (missing_text_is_reported_after_the_success_note
                         Mock.blocked Mock.flashcards_request (start ∅)
                         Mock.wav_recording "k3x9qz1a" "files/lecture-1"
                         (mkExc ValueError "The response has no valid part.")
                         (conj eq_refl (conj eq_refl (conj eq_refl eq_refl)))
                         eq_refl eq_refl eq_refl))).
Defined.

(** X8.  An exception of the upload or of the generation call that is not
    an instance of [Exception] (an interrupt, a system exit) is not turned
    into a message: it leaves the request, only the spinner is on the
    page, and the [finally] block has still removed the staged file. *)
Theorem interrupt_leaves_the_request_after_cleanup
    (env : Env) (inp : Inputs) (w : World) (f : UploadedFile) (n : string) (e : Exc) :
  staged env inp w f n ->
  is_Exception (exc_class e) = false ->
  (remote_upload env (api_key w) (temp_path env n ".mp3") (uf_data f) = Raised e \/
   exists audio,
     remote_upload env (api_key w) (temp_path env n ".mp3") (uf_data f) =
       Returned audio /\
     remote_generate env (api_key w) model
       (select_prompt (output_type inp) (lecture_topic inp)) audio = Raised e) ->
  fst (core_logic env inp w) = Raised e /\
  rendered (core_logic env inp) w = [(Main, Spinner "Analyzing lecture content...")] /\
  fs (snd (core_logic env inp w)) = fs w.
Proof.
  intros Hs He Hr. unfold rendered.
  destruct Hr as [Hup | (audio & Hup & Hgen)];
    [rewrite (core_logic_upload_fails env inp f w n Hs e Hup)
    |rewrite (core_logic_generation_fails env inp f w n Hs audio e Hup Hgen)];
    unfold handled, shown; rewrite He; cbn [fst snd page fs];
    rewrite drop_app_length; now repeat split.
Qed.

Lemma interrupt_leaves_the_request_after_cleanup_witness :
  fst (core_logic Mock.interrupted Mock.flashcards_request (start ∅)) =
    Raised (mkExc KeyboardInterrupt "") /\
  fs (snd (core_logic Mock.interrupted Mock.flashcards_request (start ∅))) = ∅.
Proof.
  assert (staged Mock.interrupted Mock.flashcards_request (start ∅)
            Mock.wav_recording "k3x9qz1a") as Hs
    by (repeat split; reflexivity).
  destruct (interrupt_leaves_the_request_after_cleanup
              Mock.interrupted Mock.flashcards_request (start ∅)
              Mock.wav_recording "k3x9qz1a" (mkExc KeyboardInterrupt "")
              Hs eq_refl (or_introl eq_refl)) as (H1 & _ & H3).
  exact (conj H1 H3).
Defined.

(** ** Start-up and whole runs *)

(** X9.  Start-up never touches the files.  When the secrets store can
    be read, start-up returns normally, shows the configuration banner
    exactly when the store has no [GEMINI_API_KEY], and otherwise shows
    nothing and hands the stored key to the client (with the key missing
    the client keeps whatever credential it had).  When reading the store
    raises anything but a [KeyError], as it does when there is no secrets
    file, the handler of line 12 does not apply: the exception leaves
    start-up and nothing is rendered. *)
Theorem banner_is_shown_exactly_when_the_key_is_missing (env : Env) (w : World) :
  fs (snd (configure env w)) = fs w /\
  rendered (configure env) w = banner env /\
  (forall store,
     secrets env = Returned store ->
     fst (configure env w) = Returned tt /\
     (In (Main, ErrorBox config_banner) (rendered (configure env) w) <->
      store !! "GEMINI_API_KEY" = None) /\
     api_key (snd (configure env w)) =
       match store !! "GEMINI_API_KEY" with
       | Some k => Some k
       | None => api_key w
       end) /\
  (forall e,
     secrets env = Raised e ->
     is_KeyError (exc_class e) = false ->
     configure env w = (Raised e, w) /\
     rendered (configure env) w = []).
Proof.
  split; [apply configure_quiet|].
  unfold rendered, banner.
  destruct (secrets env) as [store|e] eqn:Hs.
  - destruct (store !! "GEMINI_API_KEY") as [k|] eqn:E.
    + rewrite (configure_present env w store k Hs E).
      cbn [fst snd page api_key]. rewrite drop_all.
      split; [reflexivity|]. split; [|discriminate].
      intros s' [= <-]. rewrite E. repeat split; try reflexivity.
      * intros [].
      * discriminate.
    + rewrite (configure_missing env w store Hs E).
      cbn [fst snd page api_key]. rewrite drop_app_length.
      split; [reflexivity|]. split; [|discriminate].
      intros s' [= <-]. rewrite E. repeat split; try reflexivity. now left.
  - rewrite (configure_unreadable env w e Hs).
    destruct (is_KeyError (exc_class e)) eqn:He; cbn [fst snd page].
    + rewrite drop_app_length. split; [reflexivity|]. split; [discriminate|].
      intros e' [= <-] He'. congruence.
    + rewrite drop_all. split; [reflexivity|]. split; [discriminate|].
      intros e' [= <-] _. now split.
Qed.

Lemma banner_is_shown_exactly_when_the_key_is_missing_witness :
  configure Mock.no_secrets_file (start ∅) =
    (Raised (mkExc FileNotFoundError "No secrets found."), start ∅) /\
  rendered (configure Mock.no_credential) (start ∅) =
    [(Main, ErrorBox config_banner)].
Proof.
  split.
  - exact (proj1 (proj2 (proj2 (proj2
             (banner_is_shown_exactly_when_the_key_is_missing
                Mock.no_secrets_file (start ∅)))) _ eq_refl eq_refl)).
  - exact (proj1 (proj2 (banner_is_shown_exactly_when_the_key_is_missing
                           Mock.no_credential (start ∅)))).
Defined.

(** X10.  With the trigger released, a whole run makes no remote call and
    leaves the files alone, whether or not a recording is present.  When
    the secrets store can be read the run returns normally and renders
    the banner (if the key is missing) and the form; when reading it
    raises anything but a [KeyError], the run ends with that exception
    and renders nothing. *)
Theorem released_trigger_only_renders_the_form
    (env : Env) (inp : Inputs) (w : World) :
  generate_button inp = false ->
  new_calls (app env inp) w = [] /\
  fs (snd (app env inp w)) = fs w /\
  (forall store,
     secrets env = Returned store ->
     fst (app env inp w) = Returned tt /\
     rendered (app env inp) w = banner env ++ form inp) /\
  (forall e,
     secrets env = Raised e ->
     is_KeyError (exc_class e) = false ->
     fst (app env inp w) = Raised e /\
     rendered (app env inp) w = []).
Proof.
  intros Hb. unfold rendered, new_calls.
  destruct (secrets env) as [store|e] eqn:Hs.
  - rewrite (app_run env store inp w Hs), core_logic_idle by now right.
    cbn [fst snd fs page remote_log].
    rewrite drop_app_length, drop_all.
    split; [reflexivity|]. split; [reflexivity|]. split; [|discriminate].
    intros s' _. now split.
  - destruct (configure_quiet env w) as [Hfs Hlog].
    rewrite app_step, <- Hfs, <- Hlog.
    rewrite (configure_unreadable env w e Hs).
    destruct (is_KeyError (exc_class e)) eqn:He; cbn [fst snd fs page remote_log].
    + rewrite core_logic_idle by now right. cbn [snd fs remote_log].
      rewrite drop_all. split; [reflexivity|]. split; [reflexivity|].
      split; [discriminate|]. intros e' [= <-] He'. congruence.
    + rewrite !drop_all. split; [reflexivity|]. split; [reflexivity|].
      split; [discriminate|]. intros e' [= <-] _. now split.
Qed.

Lemma released_trigger_only_renders_the_form_witness :
  generate_button Mock.preview_request = false /\
  rendered (app Mock.healthy Mock.preview_request) (start ∅) =
    banner Mock.healthy ++ form Mock.preview_request /\
  fst (app Mock.no_secrets_file Mock.preview_request (start ∅)) =
    Raised (mkExc FileNotFoundError "No secrets found.").
Proof.
  split; [reflexivity|]. split.
  - exact (proj2 (proj1 (proj2 (proj2 (released_trigger_only_renders_the_form
                                         Mock.healthy Mock.preview_request
                                         (start ∅) eq_refl))) _ eq_refl)).
  - exact (proj1 (proj2 (proj2 (proj2 (released_trigger_only_renders_the_form
                                         Mock.no_secrets_file Mock.preview_request
                                         (start ∅) eq_refl))) _ eq_refl eq_refl)).
Defined.

(** X11.  A whole run with the key [k] in the secrets store uses that key
    for both remote calls, whatever credential the client held before:
    when the payload can be staged and the service, asked with [k],
    returns a reference and then the text [r], the run renders the form
    followed by the spinner and the results, logs the upload and the
    generation call, restores the files and leaves the client holding [k]. *)
Theorem whole_run_uses_the_stored_key
    (env : Env) (store : gmap string string) (inp : Inputs) (w : World)
    (f : UploadedFile) (k n audio r : string) :
  secrets env = Returned store ->
  store !! "GEMINI_API_KEY" = Some k ->
  uploaded_file inp = Some f ->
  generate_button inp = true ->
  write_fault env = None ->
  fresh_name env (fs w) ".mp3" = Some n ->
  remote_upload env (Some k) (temp_path env n ".mp3") (uf_data f) = Returned audio ->
  remote_generate env (Some k) model
    (select_prompt (output_type inp) (lecture_topic inp)) audio =
    Returned (mkResponse (Returned r)) ->
  app env inp w =
    (Returned tt,
     mkWorld (fs w) (page w ++ form inp ++ spinner :: results inp r)
       (remote_log w ++
          [UploadCall (temp_path env n ".mp3");
           GenerateCall model
             (select_prompt (output_type inp) (lecture_topic inp)) audio])
       (Some k)).
Proof.
  intros Hs Hk Hf Hb Hw Hn Hup Hgen.
  rewrite (app_run env store inp w Hs). unfold banner. rewrite Hs, Hk.
  erewrite core_logic_succeeds; cbn [fs page remote_log api_key]; eauto.
  now rewrite <- app_assoc.
Qed.

Lemma whole_run_uses_the_stored_key_witness :
  api_key (start ∅) = None /\
  fst (app Mock.keyed Mock.flashcards_request (start ∅)) = Returned tt /\
  api_key (snd (app Mock.keyed Mock.flashcards_request (start ∅))) = Some "sk-test".
Proof.
  split; [reflexivity|].
  rewrite (whole_run_uses_the_stored_key
             Mock.keyed Mock.with_key Mock.flashcards_request (start ∅)
             Mock.wav_recording
             "sk-test" "k3x9qz1a" "files/lecture-1" Mock.flashcard_text)
    by reflexivity.
  split; reflexivity.
Defined.

(** ** Prompts and file names *)

(** X12.  Whatever string the mode is, the selected prompt contains the
    topic: the fallback branch embeds it as the other two do. *)
Theorem every_prompt_mentions_the_topic (output_type t : string) :
  PyStr.contains t (select_prompt output_type t) = true.
Proof.
  unfold select_prompt, study_notes_prompt, flashcards_prompt, quiz_prompt.
  destruct (String.eqb output_type "Study Notes");
    [|destruct (String.eqb output_type "Flashcards")];
    apply contains_middle.
Qed.

(** X13.  The three modes of the selection control get three different
    prompts for one and the same topic, so changing the mode always
    changes what is asked of the model. *)
Theorem modes_select_different_prompts (m1 m2 : OutputMode) (t : string) :
  m1 <> m2 ->
  select_prompt (mode_label m1) t <> select_prompt (mode_label m2) t.
Proof.
  intros Hne.
  destruct m1, m2; try (now destruct Hne); cbn; discriminate.
Qed.

Lemma modes_select_different_prompts_witness :
  select_prompt "Study Notes" "Cell Biology" <>
  select_prompt "Multiple Choice Quiz" "Cell Biology".
Proof.
  apply (modes_select_different_prompts StudyNotes Quiz "Cell Biology").
  discriminate.
Defined.

Lemma no_space_after_replace (t : string) :
  PyStr.contains " " (underscore_spaces t) = false.
Proof.
  induction t as [|c t IH]; [reflexivity|].
  change (underscore_spaces (String c t))
    with (String (if Ascii.eqb c " " then "_"%char else c) (underscore_spaces t)).
  cbn [PyStr.contains String.prefix]. rewrite IH, orb_false_r.
  destruct (Ascii.eqb c " ") eqn:E.
  - now destruct (ascii_dec " " "_").
  - destruct (ascii_dec " " c) as [<-|]; [|reflexivity].
    now rewrite Ascii.eqb_refl in E.
Qed.

Lemma length_map_chars (g : ascii -> ascii) (t : string) :
  String.length (PyStr.map_chars g t) = String.length t.
Proof. induction t as [|c t IH]; cbn; [reflexivity|now rewrite IH]. Qed.

(** X14.  For every topic and every mode string, the suggested file name
    ends in [.md] and starts with the topic part, which has the length of
    the topic and contains no space; so a space in a file name can only
    come from the mode. *)
Theorem file_name_has_md_suffix_and_spaceless_topic (t output_type : string) :
  PyStr.endswith (file_name t output_type) ".md" = true /\
  String.prefix (PyStr.replace " " "_" t) (file_name t output_type) = true /\
  String.length (PyStr.replace " " "_" t) = String.length t /\
  PyStr.contains " " (PyStr.replace " " "_" t) = false.
Proof.
  unfold file_name. rewrite (replace_char " " "_").
  split.
  { apply endswith_later, (endswith_later "_" (PyStr.lower output_type +:+ ".md")).
    apply (endswith_app (PyStr.lower output_type) ".md"). }
  split; [apply prefix_refl_app|].
  split; [apply length_map_chars|apply no_space_after_replace].
Qed.

(** ** A missing credential *)

(** C8, as the claim words it, fails in two ways.  With no secrets file,
    reading the store raises an exception that [except KeyError] does not
    catch: the run ends at line 11, with no banner and no form.  And with
    a readable store that lacks the key, nothing in the script makes a
    later request fail: when the service answers the client, the request
    succeeds and offers the download under the banner. *)
Lemma missing_credential_can_crash_or_succeed :
  app Mock.no_secrets_file Mock.flashcards_request (start ∅) =
    (Raised (mkExc FileNotFoundError "No secrets found."), start ∅) /\
  secrets Mock.other_credential = Returned ∅ /\
  fst (app Mock.other_credential Mock.flashcards_request (start ∅)) = Returned tt /\
  rendered (app Mock.other_credential Mock.flashcards_request) (start ∅) =
    (Main, ErrorBox config_banner) :: form Mock.flashcards_request ++
    spinner :: results Mock.flashcards_request Mock.flashcard_text.
Proof. repeat split; vm_compute; reflexivity. Qed.

(** C8, as the code has it.  When the secrets store can be read and has
    no [GEMINI_API_KEY], start-up shows the configuration banner and
    returns normally, and the whole form is rendered after it, down to the
    trigger.  No credential is configured, and a later request is not
    stopped at start-up: once its payload is staged it makes the upload
    call without a credential and removes the staged file afterwards.
    What happens then is the service's answer: if the upload raises an
    error [e], the request ends there with a processing-error message and
    nothing else; if the service answers both calls, the results are
    rendered as usual. *)
Theorem missing_credential_shows_banner_and_form
    (env : Env) (store : gmap string string) (inp : Inputs) (w : World) :
  secrets env = Returned store ->
  store !! "GEMINI_API_KEY" = None ->
  api_key w = None ->
  configure env w =
    (Returned tt,
     mkWorld (fs w) (page w ++ [(Main, ErrorBox config_banner)])
       (remote_log w) None) /\
  fst (bind (configure env) (fun _ => interface inp) w) = Returned tt /\
  rendered (bind (configure env) (fun _ => interface inp)) w =
    (Main, ErrorBox config_banner) :: form inp /\
  rendered (interface inp) w = form inp /\
  last (form inp) = Some (Col2, Button ("✨ Generate " +:+ output_type inp)) /\
  forall (f : UploadedFile) (n : string),
    staged env inp w f n ->
    (exists rest,
       new_calls (app env inp) w = UploadCall (temp_path env n ".mp3") :: rest) /\
    fs (snd (app env inp w)) = fs w /\
    (forall e,
       remote_upload env None (temp_path env n ".mp3") (uf_data f) = Raised e ->
       is_Exception (exc_class e) = true ->
       fst (app env inp w) = Returned tt /\
       new_calls (app env inp) w = [UploadCall (temp_path env n ".mp3")] /\
       rendered (app env inp) w =
         (Main, ErrorBox config_banner) :: form inp ++
         [(Main, Spinner "Analyzing lecture content...");
          (Main, ErrorBox ("Processing Error: " +:+ exc_str e))]) /\
    (forall audio r,
       remote_upload env None (temp_path env n ".mp3") (uf_data f) =
         Returned audio ->
       remote_generate env None model
         (select_prompt (output_type inp) (lecture_topic inp)) audio =
         Returned (mkResponse (Returned r)) ->
       fst (app env inp w) = Returned tt /\
       rendered (app env inp) w =
         (Main, ErrorBox config_banner) :: form inp ++ spinner :: results inp r).
Proof.
  intros Hs Hk Hkey.
  pose proof (configure_missing env w store Hs Hk) as Hc. rewrite Hkey in Hc.
  split; [exact Hc|].
  unfold rendered at 1 2. unfold bind at 1 2. rewrite Hc, !interface_run.
  cbn [fst snd page fs remote_log api_key].
  split; [reflexivity|].
  split; [rewrite <- app_assoc; apply drop_app_length|].
  split; [apply drop_app_length|].
  split; [unfold form; now destruct (uploaded_file inp)|].
  intros f n Hst.
  pose (W := mkWorld (fs w) ((page w ++ [(Main, ErrorBox config_banner)]) ++ form inp)
               (remote_log w) None).
  assert (app env inp w = core_logic env inp W) as Happ
    by (now rewrite app_step, Hc).
  assert (staged env inp W f n) as HW by exact Hst.
  unfold new_calls, rendered. rewrite Happ.
  split; [|split; [|split]].
  - destruct (remote_upload env None (temp_path env n ".mp3") (uf_data f))
      as [audio|e] eqn:Hup;
      [|rewrite (core_logic_upload_fails env inp f W n HW e Hup);
        cbn [snd remote_log]; rewrite drop_app_length; now eexists].
    destruct (remote_generate env None model
                (select_prompt (output_type inp) (lecture_topic inp)) audio)
      as [[[r|e]]|e] eqn:Hgen;
      [rewrite (core_logic_completes env inp f W n HW audio r Hup Hgen)
      |rewrite (core_logic_text_missing env inp f W n HW audio e Hup Hgen)
      |rewrite (core_logic_generation_fails env inp f W n HW audio e Hup Hgen)];
      cbn [snd remote_log]; rewrite drop_app_length; now eexists.
  - destruct HW as (Hf & Hb & Hw & Hn).
    exact (proj1 (staged_request_restores_files env inp f W n Hf Hb Hw Hn)).
  - intros e Hup He.
    rewrite (core_logic_upload_fails env inp f W n HW e Hup).
    unfold handled, shown, W. rewrite He. cbn [fst snd page remote_log].
    rewrite drop_app_length. split; [reflexivity|]. split; [reflexivity|].
    rewrite <- !app_assoc. apply drop_app_length.
  - intros audio r Hup Hgen.
    rewrite (core_logic_completes env inp f W n HW audio r Hup Hgen).
    unfold W. cbn [fst snd page]. split; [reflexivity|].
    rewrite <- !app_assoc. apply drop_app_length.
Qed.

Lemma missing_credential_shows_banner_and_form_witness :
  secrets Mock.no_credential = Returned ∅ /\
  fst (app Mock.no_credential Mock.flashcards_request (start ∅)) = Returned tt /\
  new_calls (app Mock.no_credential Mock.flashcards_request) (start ∅) =
    [UploadCall "/tmp/tmpk3x9qz1a.mp3"] /\
  rendered (app Mock.no_credential Mock.flashcards_request) (start ∅) =
    (Main, ErrorBox config_banner) :: form Mock.flashcards_request ++
    [(Main, Spinner "Analyzing lecture content...");
     (Main, ErrorBox "Processing Error: No API_KEY or ADC found.")].
Proof.
  split; [reflexivity|].
  assert (staged Mock.no_credential Mock.flashcards_request (start ∅)
            Mock.wav_recording "k3x9qz1a") as Hst
    by (repeat split; reflexivity).
  pose proof (missing_credential_shows_banner_and_form
                Mock.no_credential ∅ Mock.flashcards_request (start ∅)
                eq_refl eq_refl eq_refl) as (_ & _ & _ & _ & _ & H).
  destruct (H Mock.wav_recording "k3x9qz1a" Hst) as (_ & _ & Hfail & _).
  exact (Hfail (mkExc RemoteError "No API_KEY or ADC found.") eq_refl eq_refl).
Defined.
